(** * WordBash infrastructure: the CDK app and its three stacks

  A shallow embedding of [app.py], [network_stack.py], [data_stack.py]
  and [compute_stack.py].  The program is a synthesis-time script: it
  reads values from the construct tree's context, instantiates
  constructs under a stack and calls mutating methods on them.  The
  embedding keeps that shape: a stack body is a program in a state and
  error monad over the stack's construct store, constructs are typed
  records holding exactly the keyword arguments the source passes, and
  Python object references are handles into the store. *)

From stdpp Require Import gmap strings list fin_maps.
From Stdlib Require Import ZArith PrimFloat Ascii.

Set Warnings "-register-all".
Open Scope string_scope.
Open Scope Z_scope.
Open Scope list_scope.

(** ** Python values and truthiness *)

Module Py.

(** The values a context lookup can give back: what JSON carries. *)
Inductive pyval : Type :=
| PyNone
| PyBool (b : bool)
| PyInt (z : Z)
| PyFloat (f : float)
| PyStr (s : string)
| PyList (l : list pyval)
| PyDict (d : list (string * pyval)).

(** [bool(v)]: the test behind [if v], [v or w] and [a if v else b]. *)
Definition truthy (v : pyval) : bool :=
  match v with
  | PyNone => false
  | PyBool b => b
  | PyInt z => negb (Z.eqb z 0)
  | PyFloat f => negb (PrimFloat.eqb f 0%float)
  | PyStr s => negb (String.eqb s "")
  | PyList l => match l with [] => false | _ :: _ => true end
  | PyDict d => match d with [] => false | _ :: _ => true end
  end.

(** [a or b] *)
Definition py_or (a b : pyval) : pyval := if truthy a then a else b.

(** [a if c else b] *)
Definition py_if {A} (c : pyval) (a b : A) : A := if truthy c then a else b.

End Py.
Export Py.

(** ** The construct library, at the level of what a declaration records

    The [aws_cdk] classes the stacks instantiate are not part of the
    sources.  Each is a record of the keyword arguments the sources pass
    to it, and each method the sources call is the update it makes to the
    object it is called on. *)

Module Cdk.

(** *** Context *)

(** [node.try_get_context(key)]: the value stored under [key], [None]
    when there is none.  No construct of this app calls [set_context],
    so every node sees the app's context. *)
Definition try_get_context (ctx : gmap string pyval) (key : string) : pyval :=
  default PyNone (ctx !! key).

(** *** Strings that may hold deploy-time attributes *)

Inductive atom : Type :=
| APy (v : pyval)                      (* a Python value known at synthesis *)
| AAttr (owner attr : string)          (* attribute of a construct, by path *)
| APseudo (name : string).             (* AWS::Region, AWS::AccountId *)

Inductive fpart : Type :=
| FLit (s : string)
| FSub (a : atom).

Inductive value : Type :=
| VAtom (a : atom)
| VFStr (parts : list fpart).          (* an f-string *)

Definition VStr (s : string) : value := VAtom (APy (PyStr s)).

(** *** Environment and stack identity *)

Record Environment : Type := mkEnvironment {
  account : pyval;
  region : pyval
}.

(** [Stack.region] / [Stack.account]: the environment's value when one
    was given, the deploy-time pseudo parameter otherwise. *)
Definition stack_region (env : Environment) : atom :=
  match region env with
  | PyNone => APseudo "AWS::Region"
  | v => APy v
  end.

Definition stack_account (env : Environment) : atom :=
  match account env with
  | PyNone => APseudo "AWS::AccountId"
  | v => APy v
  end.

(** A construct is referred to by the id of its stack and its path
    below the stack. *)
Record handle : Type := mkHandle {
  h_stack : string;
  h_path : string
}.

Definition handle_eqb (a b : handle) : bool :=
  String.eqb (h_stack a) (h_stack b) && String.eqb (h_path a) (h_path b).

(** *** Network constructs *)

Inductive SubnetType : Type := PUBLIC | PRIVATE_WITH_EGRESS | PRIVATE_ISOLATED.

Record SubnetConfiguration : Type := mkSubnetConfiguration {
  sc_name : string;
  sc_subnet_type : SubnetType;
  sc_cidr_mask : Z
}.

Record Vpc : Type := mkVpc {
  max_azs : nat;
  nat_gateways : nat;
  subnet_configuration : list SubnetConfiguration
}.

(** *** Data constructs *)

Inductive AttributeType : Type := BINARY | NUMBER | STRING.
Inductive BillingMode : Type := PAY_PER_REQUEST | PROVISIONED.
Inductive RemovalPolicy : Type := DESTROY | RETAIN | SNAPSHOT.

Record Attribute : Type := mkAttribute {
  attr_name : string;
  attr_type : AttributeType
}.

Record Table : Type := mkTable {
  table_name : string;
  partition_key : Attribute;
  sort_key : option Attribute;
  billing_mode : BillingMode;
  removal_policy : RemovalPolicy
}.

Record CfnOutput : Type := mkCfnOutput {
  out_value : value;
  export_name : option value
}.

(** *** Security groups *)

Inductive Peer : Type :=
| any_ipv4
| peer_security_group (sg : handle).

Inductive Port : Type :=
| tcp (p : Z).

Record IngressRule : Type := mkIngressRule {
  ir_peer : Peer;
  ir_port : Port
}.

Record SecurityGroup : Type := mkSecurityGroup {
  sg_vpc : handle;
  ingress_rules : list IngressRule
}.

(** *** Cluster, load balancer, listener, target groups *)

Record Cluster : Type := mkCluster { cluster_vpc : handle }.

Record ApplicationLoadBalancer : Type := mkApplicationLoadBalancer {
  alb_vpc : handle;
  internet_facing : bool;
  alb_security_group : handle
}.

Inductive ApplicationProtocol : Type := HTTP | HTTPS.
Inductive TargetType : Type := INSTANCE | IP | LAMBDA.

Inductive ListenerAction : Type :=
| forward (target_groups : list handle).

Inductive ListenerCondition : Type :=
| path_patterns (values : list string).

Record ApplicationListenerRule : Type := mkApplicationListenerRule {
  rule_id : string;
  priority : Z;
  conditions : list ListenerCondition;
  rule_action : ListenerAction
}.

Record ApplicationListener : Type := mkApplicationListener {
  listener_port : Z;
  listener_protocol : ApplicationProtocol;
  default_action : ListenerAction;
  rules : list ApplicationListenerRule
}.

Record HealthCheck : Type := mkHealthCheck {
  hc_path : string;
  healthy_threshold_count : Z;
  unhealthy_threshold_count : Z;
  timeout_seconds : Z;
  interval_seconds : Z
}.

(** Raw template values, as [add_property_override] takes them. *)
Inductive cfnval : Type :=
| CfnStr (s : string)
| CfnList (l : list cfnval)
| CfnDict (d : list (string * cfnval)).

Record ApplicationTargetGroup : Type := mkApplicationTargetGroup {
  tg_vpc : handle;
  tg_port : Z;
  tg_protocol : ApplicationProtocol;
  target_type : TargetType;
  health_check : HealthCheck;
  targets : list handle;
  property_overrides : list (string * cfnval)
}.

(** *** Images, roles, logs, task definitions, services *)

Inductive Platform : Type := LINUX_AMD64 | LINUX_ARM64.

Record DockerImageAsset : Type := mkDockerImageAsset {
  directory : pyval;
  platform : Platform
}.

Inductive Principal : Type :=
| ServicePrincipal (service : string).

Record PolicyStatement : Type := mkPolicyStatement {
  actions : list string;
  resources : list value
}.

Record Role : Type := mkRole {
  assumed_by : Principal;
  policy : list PolicyStatement
}.

Inductive RetentionDays : Type := ONE_WEEK | TWO_WEEKS | ONE_MONTH.

Record LogGroup : Type := mkLogGroup {
  log_group_name : string;
  retention : RetentionDays
}.

Record PortMapping : Type := mkPortMapping { container_port : Z }.

Record AwsLogDriver : Type := mkAwsLogDriver {
  stream_prefix : string;
  log_group : handle
}.

Record ContainerDefinition : Type := mkContainerDefinition {
  container_id : string;
  image : handle;
  port_mappings : list PortMapping;
  environment : list (string * value);
  logging : AwsLogDriver
}.

Record FargateTaskDefinition : Type := mkFargateTaskDefinition {
  memory_limit_mib : Z;
  cpu : Z;
  task_role : handle;
  containers : list ContainerDefinition
}.

Record ScalableTaskCount : Type := mkScalableTaskCount {
  min_capacity : Z;
  max_capacity : Z;
  cpu_policies : list (string * Z)     (* policy id, target utilization % *)
}.

Record FargateService : Type := mkFargateService {
  cluster : handle;
  task_definition : handle;
  desired_count : Z;
  security_groups : list handle;
  scaling : option ScalableTaskCount
}.

Record StringParameter : Type := mkStringParameter {
  parameter_name : string;
  string_value : value;
  description : string
}.

(** *** The construct store of one stack *)

Inductive construct : Type :=
| CVpc (c : Vpc)
| CTable (c : Table)
| COutput (c : CfnOutput)
| CCluster (c : Cluster)
| CSecurityGroup (c : SecurityGroup)
| CLoadBalancer (c : ApplicationLoadBalancer)
| CListener (c : ApplicationListener)
| CTargetGroup (c : ApplicationTargetGroup)
| CImage (c : DockerImageAsset)
| CRole (c : Role)
| CLogGroup (c : LogGroup)
| CTaskDef (c : FargateTaskDefinition)
| CService (c : FargateService)
| CParameter (c : StringParameter).

(** Children of a stack in creation order, keyed by their path below
    the stack. *)
Definition store : Type := list (string * construct).

Fixpoint find_child (st : store) (path : string) : option construct :=
  match st with
  | [] => None
  | (p, c) :: rest => if String.eqb p path then Some c else find_child rest path
  end.

Fixpoint replace_child (st : store) (path : string) (c : construct) : store :=
  match st with
  | [] => []
  | (p, c0) :: rest =>
      if String.eqb p path then (p, c) :: rest
      else (p, c0) :: replace_child rest path c
  end.

Definition child_paths (st : store) : list string := map fst st.

(** No name occurs twice. *)
Fixpoint distinct (l : list string) : bool :=
  match l with
  | [] => true
  | x :: rest => negb (existsb (String.eqb x) rest) && distinct rest
  end.

(** *** Synthesis errors and the monad of a stack body *)

Inductive error : Type :=
| AlreadyExists (path : string)    (* "There is already a Construct with name ..." *)
| NotFound (path : string)
| WrongType (path : string)
| Invalid (msg : string).

(** What a stack's methods reach through [self]. *)
Record self_t : Type := mkSelf {
  self_id : string;
  self_context : gmap string pyval;
  self_env : Environment
}.

Definition ST (S A : Type) : Type := S -> error + (A * S).

#[global] Instance ST_ret {S} : MRet (ST S) := fun A a st => inr (a, st).

#[global] Instance ST_bind {S} : MBind (ST S) := fun A B k m st =>
  match m st with
  | inl e => inl e
  | inr (a, st') => k a st'
  end.

(** A stack body runs over the stack's construct store. *)
Abbreviation M := (ST store).

Definition raise {S A} (e : error) : ST S A := fun _ => inl e.

(** Instantiating a construct under the stack with a given id. *)
Definition new_construct (self : self_t) (id : string) (c : construct) : M handle :=
  fun st =>
    match find_child st id with
    | Some _ => inl (AlreadyExists id)
    | None => inr (mkHandle (self_id self) id, st ++ [(id, c)])
    end.

(** Reading and writing an object of this stack through a reference. *)
Definition get (self : self_t) (h : handle) : M construct :=
  fun st =>
    if String.eqb (h_stack h) (self_id self) then
      match find_child st (h_path h) with
      | Some c => inr (c, st)
      | None => inl (NotFound (h_path h))
      end
    else inl (NotFound (h_path h)).

Definition put (h : handle) (c : construct) : M unit :=
  fun st => inr (tt, replace_child st (h_path h) c).

(** Typed views of a referenced object. *)
Definition get_security_group (self : self_t) (h : handle) : M SecurityGroup :=
  c ← get self h;
  match c with CSecurityGroup x => mret x | _ => raise (WrongType (h_path h)) end.

Definition get_role (self : self_t) (h : handle) : M Role :=
  c ← get self h;
  match c with CRole x => mret x | _ => raise (WrongType (h_path h)) end.

Definition get_task_definition (self : self_t) (h : handle) : M FargateTaskDefinition :=
  c ← get self h;
  match c with CTaskDef x => mret x | _ => raise (WrongType (h_path h)) end.

Definition get_service (self : self_t) (h : handle) : M FargateService :=
  c ← get self h;
  match c with CService x => mret x | _ => raise (WrongType (h_path h)) end.

Definition get_target_group (self : self_t) (h : handle) : M ApplicationTargetGroup :=
  c ← get self h;
  match c with CTargetGroup x => mret x | _ => raise (WrongType (h_path h)) end.

Definition get_listener (self : self_t) (h : handle) : M ApplicationListener :=
  c ← get self h;
  match c with CListener x => mret x | _ => raise (WrongType (h_path h)) end.

(** An attribute of a construct that is only known at deploy time
    ([alb.load_balancer_dns_name], [table.table_name], ...). *)
Definition attribute (h : handle) (name : string) : atom :=
  AAttr (String.append (h_stack h) (String.append "/" (h_path h))) name.

(** [sg.add_ingress_rule(peer, port)] *)
Definition add_ingress_rule (self : self_t) (sg : handle) (peer : Peer) (port : Port) : M unit :=
  g ← get_security_group self sg;
  put sg (CSecurityGroup
            (mkSecurityGroup (sg_vpc g) (ingress_rules g ++ [mkIngressRule peer port]))).

(** [role.add_to_policy(statement)] *)
Definition add_to_policy (self : self_t) (role : handle) (stmt : PolicyStatement) : M unit :=
  r ← get_role self role;
  put role (CRole (mkRole (assumed_by r) (policy r ++ [stmt]))).

(** [table.grant_read_write_data(grantee)]: the library's data-plane read
    and write actions on the table, added to the grantee's policy. *)
Definition read_data_actions : list string :=
  ["dynamodb:BatchGetItem"; "dynamodb:GetRecords"; "dynamodb:GetShardIterator";
   "dynamodb:Query"; "dynamodb:GetItem"; "dynamodb:Scan";
   "dynamodb:ConditionCheckItem"].

Definition write_data_actions : list string :=
  ["dynamodb:BatchWriteItem"; "dynamodb:PutItem"; "dynamodb:UpdateItem";
   "dynamodb:DeleteItem"].

Definition grant_read_write_data (self : self_t) (table role : handle) : M unit :=
  add_to_policy self role
    (mkPolicyStatement
       (read_data_actions ++ write_data_actions ++ ["dynamodb:DescribeTable"])
       [VAtom (attribute table "table_arn")]).

(** [task_def.add_container(id, image=, port_mappings=, environment=, logging=)] *)
Definition add_container (self : self_t) (task_def : handle) (c : ContainerDefinition) : M unit :=
  td ← get_task_definition self task_def;
  if existsb (fun c0 => String.eqb (container_id c0) (container_id c)) (containers td)
  then raise (AlreadyExists (container_id c))
  else put task_def (CTaskDef (mkFargateTaskDefinition
                                 (memory_limit_mib td) (cpu td) (task_role td)
                                 (containers td ++ [c]))).

(** [service.auto_scale_task_count(max_capacity=, min_capacity=)]: the
    scalable target lives under the service, and the object handed back
    is reached through the service. *)
Definition auto_scale_task_count (self : self_t) (service : handle)
    (max_cap min_cap : Z) : M handle :=
  s ← get_service self service;
  match scaling s with
  | Some _ => raise (Invalid "AutoScaling of task count already enabled for this service")
  | None =>
      put service (CService (mkFargateService
                               (cluster s) (task_definition s) (desired_count s)
                               (security_groups s)
                               (Some (mkScalableTaskCount min_cap max_cap []))));;
      mret service
  end.

(** [scaling.scale_on_cpu_utilization(id, target_utilization_percent=)] *)
Definition scale_on_cpu_utilization (self : self_t) (scaling_of : handle)
    (id : string) (target : Z) : M unit :=
  s ← get_service self scaling_of;
  match scaling s with
  | None => raise (NotFound id)
  | Some sc =>
      if existsb (fun p => String.eqb (fst p) id) (cpu_policies sc)
      then raise (AlreadyExists id)
      else put scaling_of
             (CService (mkFargateService
                          (cluster s) (task_definition s) (desired_count s)
                          (security_groups s)
                          (Some (mkScalableTaskCount (min_capacity sc) (max_capacity sc)
                                   (cpu_policies sc ++ [(id, target)])))))
  end.

(** [service.attach_to_application_target_group(tg)] *)
Definition attach_to_application_target_group (self : self_t)
    (service tg : handle) : M unit :=
  _ ← get_service self service;
  g ← get_target_group self tg;
  put tg (CTargetGroup (mkApplicationTargetGroup
                          (tg_vpc g) (tg_port g) (tg_protocol g) (target_type g)
                          (health_check g) (targets g ++ [service])
                          (property_overrides g))).

(** [tg.node.default_child]: the low-level resource behind the target
    group; it is the same object in the store. *)
Definition default_child (self : self_t) (tg : handle) : M handle :=
  _ ← get_target_group self tg;
  mret tg.

(** [cfn.add_property_override(path, value)]: a later override of the
    same path replaces the earlier one. *)
Definition add_property_override (self : self_t) (cfn : handle)
    (path : string) (v : cfnval) : M unit :=
  g ← get_target_group self cfn;
  put cfn (CTargetGroup (mkApplicationTargetGroup
                           (tg_vpc g) (tg_port g) (tg_protocol g) (target_type g)
                           (health_check g) (targets g)
                           (List.filter (fun kv => negb (String.eqb (fst kv) path))
                                   (property_overrides g) ++ [(path, v)]))).

(** [alb.add_listener(id, port=, protocol=, default_action=)]: the
    listener is a child of the load balancer. *)
Definition add_listener (self : self_t) (alb : handle) (id : string)
    (port : Z) (protocol : ApplicationProtocol) (action : ListenerAction) : M handle :=
  c ← get self alb;
  match c with
  | CLoadBalancer _ =>
      new_construct self (String.append (h_path alb) (String.append "/" id))
        (CListener (mkApplicationListener port protocol action []))
  | _ => raise (WrongType (h_path alb))
  end.

(** [listener.add_action(id, priority=, conditions=, action=)]: with a
    priority it adds a rule named [id + "Rule"], without one it replaces
    the default action; priority and conditions come together or not at
    all, and a priority is at least 1. *)
Definition add_action (self : self_t) (listener : handle) (id : string)
    (prio : option Z) (conds : list ListenerCondition) (action : ListenerAction) : M unit :=
  l ← get_listener self listener;
  match prio, conds with
  | Some _, [] | None, _ :: _ =>
      raise (Invalid "Setting 'conditions' also requires 'priority', and vice versa")
  | None, [] =>
      put listener (CListener (mkApplicationListener
                                 (listener_port l) (listener_protocol l) action (rules l)))
  | Some p, _ :: _ =>
      if p <=? 0 then raise (Invalid "Priority must have value greater than or equal to 1")
      else if existsb (fun r => String.eqb (rule_id r) (String.append id "Rule")) (rules l)
      then raise (AlreadyExists (String.append id "Rule"))
      else put listener
             (CListener (mkApplicationListener
                           (listener_port l) (listener_protocol l) (default_action l)
                           (rules l ++ [mkApplicationListenerRule
                                          (String.append id "Rule") p conds action])))
  end.

(** *** Stacks under the app *)

Record Stack : Type := mkStack {
  stack_id : string;
  stack_class : string;
  stack_env : Environment;
  children : store;
  dependencies : list string
}.

(** The app's children in creation order. *)
Abbreviation AppM := (ST (list Stack)).

Definition find_stack (stacks : list Stack) (id : string) : option Stack :=
  List.find (fun s => String.eqb (stack_id s) id) stacks.

(** [super().__init__(scope, construct_id, env=env)] followed by the
    rest of the subclass's [__init__]: the stack is entered under the
    app, then its body fills its store. *)
Definition new_stack {A} (ctx : gmap string pyval) (class id : string)
    (env : Environment) (body : self_t -> M A) : AppM A :=
  fun stacks =>
    match find_stack stacks id with
    | Some _ => inl (AlreadyExists id)
    | None =>
        match body (mkSelf id ctx env) [] with
        | inl e => inl e
        | inr (a, st) => inr (a, stacks ++ [mkStack id class env st []])
        end
    end.

(** [self.stack_name] of a stack created directly under the app. *)
Definition stack_name (self : self_t) : string := self_id self.

(** Does [a] reach [b] along declared dependencies? *)
Fixpoint depends_on (fuel : nat) (stacks : list Stack) (a b : string) : bool :=
  match fuel with
  | O => false
  | S fuel' =>
      match find_stack stacks a with
      | None => false
      | Some s =>
          existsb (fun d => String.eqb d b || depends_on fuel' stacks d b)
                  (dependencies s)
      end
  end.

(** [a.add_dependency(b)]: refused when it would close a cycle. *)
Definition add_dependency (a b : string) : AppM unit :=
  fun stacks =>
    match find_stack stacks a, find_stack stacks b with
    | Some _, Some _ =>
        if String.eqb a b || depends_on (length stacks) stacks b a
        then inl (Invalid "adding this dependency would create a cyclic reference")
        else inr (tt, map (fun s =>
                             if String.eqb (stack_id s) a
                             then mkStack (stack_id s) (stack_class s) (stack_env s)
                                    (children s) (dependencies s ++ [b])
                             else s) stacks)
    | None, _ => inl (NotFound a)
    | _, None => inl (NotFound b)
    end.

End Cdk.
Export Cdk.

(** ** network_stack.py *)

Module NetworkStack.

Record t : Type := mk { id : string; vpc : handle }.

Definition __init__ (ctx : gmap string pyval) (construct_id : string)
    (env : Environment) : AppM t :=
  new_stack ctx "NetworkStack" construct_id env (fun self =>
    (* VPC with 2 AZs, public and private subnets *)
    vpc ← new_construct self "WordBashVpc"
            (CVpc {| max_azs := 2;
                     nat_gateways := 1;
                     subnet_configuration :=
                       [ {| sc_name := "Public";
                            sc_subnet_type := PUBLIC;
                            sc_cidr_mask := 24 |};
                         {| sc_name := "Private";
                            sc_subnet_type := PRIVATE_WITH_EGRESS;
                            sc_cidr_mask := 24 |} ] |});
    mret (mk construct_id vpc)).

End NetworkStack.

(** ** data_stack.py *)

Module DataStack.

Record t : Type := mk { id : string; table : handle }.

Definition __init__ (ctx : gmap string pyval) (construct_id : string)
    (env : Environment) : AppM t :=
  new_stack ctx "DataStack" construct_id env (fun self =>
    (* DynamoDB table for WordBash games *)
    table ← new_construct self "WordBashGamesTable"
              (CTable {| table_name := "wordbash_games";
                         partition_key := {| attr_name := "game_id";
                                             attr_type := STRING |};
                         sort_key := None;
                         billing_mode := PAY_PER_REQUEST;
                         removal_policy :=
                           py_if (try_get_context (self_context self) "keep_data")
                                 RETAIN DESTROY |});
    (* CloudFormation exports for cross-stack references *)
    new_construct self "TableArn"
      (COutput {| out_value := VAtom (attribute table "table_arn");
                  export_name := Some (VFStr [FSub (APy (PyStr (stack_name self)));
                                              FLit "-TableArn"]) |});;
    new_construct self "TableName"
      (COutput {| out_value := VAtom (attribute table "table_name");
                  export_name := Some (VFStr [FSub (APy (PyStr (stack_name self)));
                                              FLit "-TableName"]) |});;
    mret (mk construct_id table)).

End DataStack.

(** ** compute_stack.py *)

Module ComputeStack.

Record t : Type := mk { id : string }.

Definition _create_alb_security_group (self : self_t) (vpc : handle) : M handle :=
  sg ← new_construct self "AlbSecurityGroup" (CSecurityGroup (mkSecurityGroup vpc []));
  (* Allow access from anywhere for debugging *)
  add_ingress_rule self sg any_ipv4 (tcp 80);;
  mret sg.

Definition _create_service_security_group (self : self_t) (vpc alb_sg : handle) : M handle :=
  sg ← new_construct self "ServiceSecurityGroup" (CSecurityGroup (mkSecurityGroup vpc []));
  add_ingress_rule self sg (peer_security_group alb_sg) (tcp 8080);;  (* Container port *)
  mret sg.

Definition _create_web_service (self : self_t)
    (cluster image table security_group : handle) : M handle :=
  (* Task role with DynamoDB permissions *)
  task_role ← new_construct self "WebTaskRole"
                (CRole (mkRole (ServicePrincipal "ecs-tasks.amazonaws.com") []));
  grant_read_write_data self table task_role;;
  (* Task definition *)
  task_def ← new_construct self "WebTaskDef"
               (CTaskDef {| memory_limit_mib := 1024;
                            cpu := 512;
                            task_role := task_role;
                            containers := [] |});
  (* Container with environment variables *)
  log_group ← new_construct self "WebLogGroup"
                (CLogGroup {| log_group_name := "/aws/ecs/wordbash-web";
                              retention := TWO_WEEKS |});
  add_container self task_def
    {| container_id := "WebContainer";
       image := image;
       port_mappings := [ {| container_port := 8080 |} ];
       environment :=
         [ ("AWS_REGION", VAtom (stack_region (self_env self)));
           ("LOG_LEVEL", VStr "INFO");
           ("DDB_TABLE_NAME", VAtom (attribute table "table_name"));
           ("WS_ENDPOINT_PARAM", VStr "/wordbash/ws_endpoint");
           ("API_BASE_URL",
            VAtom (APy (py_or (try_get_context (self_context self) "api_base_url")
                              (PyStr "")))) ];
       logging := {| stream_prefix := "web"; log_group := log_group |} |};;
  (* Fargate service *)
  service ← new_construct self "WebService"
              (CService {| cluster := cluster;
                           task_definition := task_def;
                           desired_count := 1;
                           security_groups := [security_group];
                           scaling := None |});
  (* Auto scaling *)
  scaling ← auto_scale_task_count self service 4 1;
  scale_on_cpu_utilization self scaling "WebCpuScaling" 50;;
  mret service.

Definition _create_game_service (self : self_t)
    (cluster image table security_group : handle) : M handle :=
  (* Task role with DynamoDB permissions *)
  task_role ← new_construct self "GameTaskRole"
                (CRole (mkRole (ServicePrincipal "ecs-tasks.amazonaws.com") []));
  grant_read_write_data self table task_role;;
  (* Task definition *)
  task_def ← new_construct self "GameTaskDef"
               (CTaskDef {| memory_limit_mib := 1024;
                            cpu := 512;
                            task_role := task_role;
                            containers := [] |});
  (* Container *)
  log_group ← new_construct self "GameLogGroup"
                (CLogGroup {| log_group_name := "/aws/ecs/wordbash-game";
                              retention := TWO_WEEKS |});
  add_container self task_def
    {| container_id := "GameContainer";
       image := image;
       port_mappings := [ {| container_port := 8080 |} ];
       environment :=
         [ ("AWS_REGION", VAtom (stack_region (self_env self)));
           ("LOG_LEVEL", VStr "INFO");
           ("DDB_TABLE_NAME", VAtom (attribute table "table_name")) ];
       logging := {| stream_prefix := "game"; log_group := log_group |} |};;
  (* Fargate service *)
  service ← new_construct self "GameService"
              (CService {| cluster := cluster;
                           task_definition := task_def;
                           desired_count := 1;
                           security_groups := [security_group];
                           scaling := None |});
  (* Auto scaling *)
  scaling ← auto_scale_task_count self service 4 1;
  scale_on_cpu_utilization self scaling "GameCpuScaling" 50;;
  mret service.

Definition _create_web_target_group (self : self_t) (vpc service : handle) : M handle :=
  tg ← new_construct self "WebTargetGroup"
         (CTargetGroup {| tg_vpc := vpc;
                          tg_port := 8080;
                          tg_protocol := HTTP;
                          target_type := IP;
                          health_check := {| hc_path := "/healthz";
                                             healthy_threshold_count := 2;
                                             unhealthy_threshold_count := 3;
                                             timeout_seconds := 10;
                                             interval_seconds := 30 |};
                          targets := [];
                          property_overrides := [] |});
  attach_to_application_target_group self service tg;;
  mret tg.

Definition _create_game_target_group (self : self_t) (vpc service : handle) : M handle :=
  (* WebSocket-enabled target group with longer idle timeout *)
  tg ← new_construct self "GameTargetGroup"
         (CTargetGroup {| tg_vpc := vpc;
                          tg_port := 8080;
                          tg_protocol := HTTP;
                          target_type := IP;
                          health_check := {| hc_path := "/healthz";
                                             healthy_threshold_count := 2;
                                             unhealthy_threshold_count := 3;
                                             timeout_seconds := 10;
                                             interval_seconds := 30 |};
                          targets := [];
                          property_overrides := [] |});
  (* Configure for WebSocket support - ALB handles upgrade automatically *)
  cfn_tg ← default_child self tg;
  add_property_override self cfn_tg "TargetGroupAttributes"
    (CfnList
       [ CfnDict [("Key", CfnStr "deregistration_delay.timeout_seconds");
                  ("Value", CfnStr "30")];
         CfnDict [("Key", CfnStr "stickiness.enabled"); ("Value", CfnStr "true")];
         CfnDict [("Key", CfnStr "stickiness.type"); ("Value", CfnStr "lb_cookie")] ]);;
  attach_to_application_target_group self service tg;;
  mret tg.

Definition ws_param_path : string := "/wordbash/ws_endpoint".

Definition body (self : self_t) (vpc table : handle) : M unit :=
  (* Get configurable paths from context *)
  let web_path := py_or (try_get_context (self_context self) "web_image_path")
                        (PyStr "../web") in
  let game_path := py_or (try_get_context (self_context self) "game_image_path")
                         (PyStr "../game") in
  (* ECS Cluster *)
  cluster ← new_construct self "WordBashCluster" (CCluster {| cluster_vpc := vpc |});
  (* Application Load Balancer *)
  alb_sg ← _create_alb_security_group self vpc;
  alb ← new_construct self "WordBashALB"
          (CLoadBalancer {| alb_vpc := vpc;
                            internet_facing := true;
                            alb_security_group := alb_sg |});
  (* Build Docker images for linux/amd64 platform *)
  web_image ← new_construct self "WebImage"
                (CImage {| directory := web_path; platform := LINUX_AMD64 |});
  game_image ← new_construct self "GameImage"
                 (CImage {| directory := game_path; platform := LINUX_AMD64 |});
  (* Create services *)
  service_sg ← _create_service_security_group self vpc alb_sg;
  web_service ← _create_web_service self cluster web_image table service_sg;
  game_service ← _create_game_service self cluster game_image table service_sg;
  (* Target groups and listener rules *)
  web_tg ← _create_web_target_group self vpc web_service;
  game_tg ← _create_game_target_group self vpc game_service;
  (* HTTP listener with web service as default (catches everything) *)
  http_listener ← add_listener self alb "HttpListener" 80 HTTP (forward [web_tg]);
  (* WebSocket rule (higher priority overrides default) *)
  add_action self http_listener "WebSocketRule"
    (Some 100) [path_patterns ["/ws/*"]] (forward [game_tg]);;
  (* Store WebSocket endpoint in SSM *)
  let ws_endpoint := VFStr [FLit "ws://";
                            FSub (attribute alb "load_balancer_dns_name");
                            FLit "/ws"] in
  new_construct self "WsEndpointParam"
    (CParameter {| parameter_name := ws_param_path;
                   string_value := ws_endpoint;
                   description := "WebSocket endpoint URL for WordBash game connections" |});;
  (* Grant SSM access to web service *)
  web_service_obj ← get_service self web_service;
  web_task_def ← get_task_definition self (task_definition web_service_obj);
  add_to_policy self (task_role web_task_def)
    {| actions := ["ssm:GetParameter"];
       resources := [VFStr [FLit "arn:aws:ssm:";
                            FSub (stack_region (self_env self));
                            FLit ":";
                            FSub (stack_account (self_env self));
                            FLit ":parameter";
                            FSub (APy (PyStr ws_param_path))]] |};;
  (* Outputs *)
  new_construct self "AlbDnsName"
    (COutput {| out_value := VAtom (attribute alb "load_balancer_dns_name");
                export_name := None |});;
  new_construct self "WebServiceUrl"
    (COutput {| out_value := VFStr [FLit "http://";
                                    FSub (attribute alb "load_balancer_dns_name")];
                export_name := None |});;
  new_construct self "WebSocketUrl"
    (COutput {| out_value := ws_endpoint; export_name := None |});;
  new_construct self "DynamoDbTableName"
    (COutput {| out_value := VAtom (attribute table "table_name");
                export_name := None |});;
  new_construct self "WsEndpointParamPath"
    (COutput {| out_value := VStr ws_param_path; export_name := None |});;
  mret tt.

Definition __init__ (ctx : gmap string pyval) (construct_id : string)
    (vpc table : handle) (env : Environment) : AppM t :=
  new_stack ctx "ComputeStack" construct_id env (fun self =>
    body self vpc table;;
    mret (mk construct_id)).

End ComputeStack.

(** ** app.py *)

Module app.

Definition main (ctx : gmap string pyval) : AppM unit :=
  (* Get configuration from context *)
  let env := {| account := try_get_context ctx "account";
                region := try_get_context ctx "region" |} in
  (* Deploy stacks in dependency order *)
  network_stack ← NetworkStack.__init__ ctx "WordBashNetworkStack" env;
  data_stack ← DataStack.__init__ ctx "WordBashDataStack" env;
  compute_stack ← ComputeStack.__init__ ctx "WordBashComputeStack"
                    (NetworkStack.vpc network_stack)
                    (DataStack.table data_stack)
                    env;
  (* Stack dependencies *)
  add_dependency (ComputeStack.id compute_stack) (NetworkStack.id network_stack);;
  add_dependency (ComputeStack.id compute_stack) (DataStack.id data_stack).

(** [app.synth()]: the stacks the run leaves under the app. *)
Definition synth (ctx : gmap string pyval) : error + list Stack :=
  match main ctx [] with
  | inl e => inl e
  | inr (_, stacks) => inr stacks
  end.

End app.

(** ** What the declarations mean to the services that apply them *)

(** *** Wildcard patterns

    Path patterns of listener rules and action patterns of policy
    statements are matched with [*] (any run of characters, also empty)
    and [?] (exactly one character). *)

Fixpoint glob (pat : string) : string -> bool :=
  match pat with
  | EmptyString => fun s => match s with EmptyString => true | String _ _ => false end
  | String c pat' =>
      if Ascii.eqb c "*"%char then
        fix star (s : string) : bool :=
          glob pat' s || match s with
                         | EmptyString => false
                         | String _ s' => star s'
                         end
      else if Ascii.eqb c "?"%char then
        fun s => match s with EmptyString => false | String _ s' => glob pat' s' end
      else
        fun s => match s with
                 | EmptyString => false
                 | String d s' => Ascii.eqb c d && glob pat' s'
                 end
  end.

(** A character that is no wildcard stands for itself. *)
Definition literal_char (c : ascii) : bool :=
  negb (Ascii.eqb c "*"%char) && negb (Ascii.eqb c "?"%char).

(** *** Listener rule evaluation *)

(** Modelled from the spec: how the load balancer, which is not part of
    the sources, answers a request from a listener declaration.  The
    matching rule of numerically least priority answers; the default
    action is the catch-all with the implicit lowest priority and answers
    when no rule matches.  Explicit priorities range over 1..50000. *)

Module Listener.

Definition max_rule_priority : Z := 50000.

Inductive rank : Type :=
| Explicit (p : Z)
| AfterAll.

Definition rank_ltb (a b : rank) : bool :=
  match a, b with
  | Explicit p, Explicit q => p <? q
  | Explicit _, AfterAll => true
  | AfterAll, _ => false
  end.

Definition condition_holds (path : string) (c : ListenerCondition) : bool :=
  match c with
  | path_patterns values => existsb (fun pat => glob pat path) values
  end.

Definition rule_matches (path : string) (r : ApplicationListenerRule) : bool :=
  forallb (condition_holds path) (conditions r).

(** The action and rank of the best candidate seen so far. *)
Fixpoint evaluate (path : string) (rs : list ApplicationListenerRule)
    (best : rank * ListenerAction) : rank * ListenerAction :=
  match rs with
  | [] => best
  | r :: rest =>
      if rule_matches path r && rank_ltb (Explicit (priority r)) (fst best)
      then evaluate path rest (Explicit (priority r), rule_action r)
      else evaluate path rest best
  end.

Definition route (l : ApplicationListener) (path : string) : ListenerAction :=
  snd (evaluate path (rules l) (AfterAll, default_action l)).

Definition is_path_rule (r : ApplicationListenerRule) : bool :=
  existsb (fun c => match c with path_patterns _ => true end) (conditions r).

End Listener.

(** *** Security group admission

    How a security group, once deployed, treats inbound traffic: it is
    let in when some ingress rule names its source and its port. *)

Module Firewall.

Inductive protocol : Type := TCP | UDP | ICMP.

(** A connection attempt towards a member of a security group.  A host
    on the internet belongs to no security group of the stack. *)
Record connection : Type := mkConnection {
  source_groups : list handle;
  conn_protocol : protocol;
  dest_port : Z
}.

Definition peer_matches (p : Peer) (c : connection) : bool :=
  match p with
  | any_ipv4 => true
  | peer_security_group g => existsb (handle_eqb g) (source_groups c)
  end.

Definition port_matches (p : Port) (c : connection) : bool :=
  match p, conn_protocol c with
  | tcp n, TCP => n =? dest_port c
  | tcp _, _ => false
  end.

(** Inbound traffic is let in when some ingress rule matches it. *)
Definition allows (g : SecurityGroup) (c : connection) : bool :=
  existsb (fun r => peer_matches (ir_peer r) c && port_matches (ir_port r) c)
          (ingress_rules g).

Definition from_internet (c : connection) : bool :=
  match source_groups c with [] => true | _ :: _ => false end.

End Firewall.

(** *** Policy statements

    A statement allows an action when one of its action patterns
    matches it. *)

Module Iam.

Definition allows_action (s : PolicyStatement) (action : string) : bool :=
  existsb (fun pat => glob pat action) (actions s).

(** The name of a parameter-store entry as a resource. *)
Definition parameter_arn (region account : atom) (name : string) : value :=
  VFStr [FLit "arn:aws:ssm:"; FSub region; FLit ":"; FSub account;
         FLit ":parameter"; FSub (APy (PyStr name))].

End Iam.

(** *** The network a [Vpc] declaration stands for *)

(** Modelled from the spec: the expansion of the [ec2.Vpc] construct,
    which is not part of the sources, into subnets and gateways.  Given a
    zone count and a block size per subnet group it lays the groups out
    over the first [max_azs] zones the environment offers, one subnet per
    group and zone.  NAT gateways sit in the first [nat_gateways] public
    subnets.  A private subnet with egress routes through the gateway of
    its own zone when there is one, and otherwise through the gateways in
    turn; without any gateway the declaration is refused. *)

Module Network.

Inductive route_target : Type :=
| InternetGateway
| NatGateway (index : nat)
| NoRoute.

Record Subnet : Type := mkSubnet {
  subnet_group : string;
  subnet_type : SubnetType;
  zone_index : nat;
  availability_zone : string;
  cidr_mask : Z;
  default_route : route_target
}.

Record t : Type := mk {
  zones : list string;
  subnets : list Subnet;
  nat_gateway_zones : list nat   (* per gateway, the zone index of its public subnet *)
}.

Fixpoint index_of (z : nat) (l : list nat) (pos : nat) : option nat :=
  match l with
  | [] => None
  | x :: rest => if Nat.eqb x z then Some pos else index_of z rest (S pos)
  end.

Definition pick (gateways : list nat) (zone next : nat) : option (nat * nat) :=
  match index_of zone gateways 0 with
  | Some g => Some (g, next)
  | None =>
      match gateways with
      | [] => None
      | _ :: _ => Some (next, ((next + 1) mod length gateways)%nat)
      end
  end.

Fixpoint place_group (cfg : SubnetConfiguration) (gateways : list nat)
    (zs : list (nat * string)) (next : nat) : option (list Subnet * nat) :=
  match zs with
  | [] => Some ([], next)
  | (i, z) :: rest =>
      match sc_subnet_type cfg with
      | PUBLIC =>
          r ← place_group cfg gateways rest next;
          Some (mkSubnet (sc_name cfg) PUBLIC i z (sc_cidr_mask cfg) InternetGateway
                  :: fst r, snd r)
      | PRIVATE_WITH_EGRESS =>
          g ← pick gateways i next;
          r ← place_group cfg gateways rest (snd g);
          Some (mkSubnet (sc_name cfg) PRIVATE_WITH_EGRESS i z (sc_cidr_mask cfg)
                  (NatGateway (fst g)) :: fst r, snd r)
      | PRIVATE_ISOLATED =>
          r ← place_group cfg gateways rest next;
          Some (mkSubnet (sc_name cfg) PRIVATE_ISOLATED i z (sc_cidr_mask cfg) NoRoute
                  :: fst r, snd r)
      end
  end.

Fixpoint place_groups (cfgs : list SubnetConfiguration) (gateways : list nat)
    (zs : list (nat * string)) (next : nat) : option (list Subnet) :=
  match cfgs with
  | [] => Some []
  | cfg :: rest =>
      r ← place_group cfg gateways zs next;
      l ← place_groups rest gateways zs (snd r);
      Some (fst r ++ l)
  end.

Definition expand (v : Vpc) (available_zones : list string) : option t :=
  let zs := take (max_azs v) available_zones in
  let izs := zip (seq 0 (length zs)) zs in
  let public_slots :=
    flat_map (fun cfg => match sc_subnet_type cfg with
                         | PUBLIC => map fst izs
                         | _ => []
                         end) (subnet_configuration v) in
  let gateways := take (nat_gateways v) public_slots in
  l ← place_groups (subnet_configuration v) gateways izs 0;
  Some (mk zs l gateways).

(** Subnets of one kind in one zone. *)
Definition subnet_type_eqb (a b : SubnetType) : bool :=
  match a, b with
  | PUBLIC, PUBLIC
  | PRIVATE_WITH_EGRESS, PRIVATE_WITH_EGRESS
  | PRIVATE_ISOLATED, PRIVATE_ISOLATED => true
  | _, _ => false
  end.

Definition subnets_in (n : t) (ty : SubnetType) (zone : nat) : list Subnet :=
  List.filter (fun s => Nat.eqb (zone_index s) zone && subnet_type_eqb (subnet_type s) ty)
              (subnets n).

End Network.

(** ** Reading a synthesized app *)

Module Synth.

Definition deref (stacks : list Stack) (h : handle) : option construct :=
  s ← find_stack stacks (h_stack h);
  find_child (children s) (h_path h).

Definition as_vpc (c : construct) : option Vpc :=
  match c with CVpc x => Some x | _ => None end.
Definition as_table (c : construct) : option Table :=
  match c with CTable x => Some x | _ => None end.
Definition as_security_group (c : construct) : option SecurityGroup :=
  match c with CSecurityGroup x => Some x | _ => None end.
Definition as_listener (c : construct) : option ApplicationListener :=
  match c with CListener x => Some x | _ => None end.
Definition as_target_group (c : construct) : option ApplicationTargetGroup :=
  match c with CTargetGroup x => Some x | _ => None end.
Definition as_image (c : construct) : option DockerImageAsset :=
  match c with CImage x => Some x | _ => None end.
Definition as_role (c : construct) : option Role :=
  match c with CRole x => Some x | _ => None end.
Definition as_log_group (c : construct) : option LogGroup :=
  match c with CLogGroup x => Some x | _ => None end.
Definition as_task_definition (c : construct) : option FargateTaskDefinition :=
  match c with CTaskDef x => Some x | _ => None end.
Definition as_service (c : construct) : option FargateService :=
  match c with CService x => Some x | _ => None end.
Definition as_parameter (c : construct) : option StringParameter :=
  match c with CParameter x => Some x | _ => None end.
Definition as_load_balancer (c : construct) : option ApplicationLoadBalancer :=
  match c with CLoadBalancer x => Some x | _ => None end.

(** The stacks a run of the app leaves, and one construct of them. *)
Definition stacks_of (ctx : gmap string pyval) : option (list Stack) :=
  match app.synth ctx with
  | inr stacks => Some stacks
  | inl _ => None
  end.

Definition construct_at (ctx : gmap string pyval) (stack path : string) : option construct :=
  stacks ← stacks_of ctx;
  deref stacks (mkHandle stack path).

Definition network : string := "WordBashNetworkStack".
Definition data : string := "WordBashDataStack".
Definition compute : string := "WordBashComputeStack".

Definition vpc (ctx : gmap string pyval) : option Vpc :=
  construct_at ctx network "WordBashVpc" ≫= as_vpc.

Definition table (ctx : gmap string pyval) : option Table :=
  construct_at ctx data "WordBashGamesTable" ≫= as_table.

Definition security_group (ctx : gmap string pyval) (path : string) : option SecurityGroup :=
  construct_at ctx compute path ≫= as_security_group.

Definition listener (ctx : gmap string pyval) (path : string) : option ApplicationListener :=
  construct_at ctx compute path ≫= as_listener.

Definition target_group (ctx : gmap string pyval) (path : string)
    : option ApplicationTargetGroup :=
  construct_at ctx compute path ≫= as_target_group.

Definition image (ctx : gmap string pyval) (path : string) : option DockerImageAsset :=
  construct_at ctx compute path ≫= as_image.

Definition service (ctx : gmap string pyval) (path : string) : option FargateService :=
  construct_at ctx compute path ≫= as_service.

Definition parameter (ctx : gmap string pyval) (path : string) : option StringParameter :=
  construct_at ctx compute path ≫= as_parameter.

Definition load_balancer (ctx : gmap string pyval) (path : string)
    : option ApplicationLoadBalancer :=
  construct_at ctx compute path ≫= as_load_balancer.

(** The [Key]/[Value] entries a target group's raw
    [TargetGroupAttributes] override holds; none when there is no such
    override. *)
Definition key_value (v : cfnval) : option (string * string) :=
  match v with
  | CfnDict [(k, CfnStr key); (x, CfnStr val)] =>
      if String.eqb k "Key" && String.eqb x "Value" then Some (key, val) else None
  | _ => None
  end.

Definition attribute_overrides (g : ApplicationTargetGroup)
    : option (list (string * string)) :=
  match List.find (fun kv => String.eqb (fst kv) "TargetGroupAttributes")
                  (property_overrides g) with
  | None => Some []
  | Some (_, CfnList l) => mapM key_value l
  | Some _ => None
  end.

(** [service.task_definition.task_role], followed through the store. *)
Definition task_role_of (ctx : gmap string pyval) (service_path : string) : option Role :=
  stacks ← stacks_of ctx;
  s ← deref stacks (mkHandle compute service_path) ≫= as_service;
  td ← deref stacks (task_definition s) ≫= as_task_definition;
  deref stacks (task_role td) ≫= as_role.

(** All of one service group's declaration: the service with its scaling,
    and everything it refers to or that is attached to it. *)
Record service_group : Type := mkServiceGroup {
  g_service : FargateService;
  g_task_definition : FargateTaskDefinition;
  g_task_role : Role;
  g_images : list DockerImageAsset;
  g_log_groups : list LogGroup;
  g_target_groups : list (string * ApplicationTargetGroup)
}.

Definition attached_target_groups (st : store) (service : handle)
    : list (string * ApplicationTargetGroup) :=
  omap (fun pc => match snd pc with
                  | CTargetGroup g =>
                      if existsb (handle_eqb service) (targets g)
                      then Some (fst pc, g) else None
                  | _ => None
                  end) st.

Definition service_group_of (ctx : gmap string pyval) (service_path : string)
    : option service_group :=
  stacks ← stacks_of ctx;
  st ← find_stack stacks compute;
  s ← deref stacks (mkHandle compute service_path) ≫= as_service;
  td ← deref stacks (task_definition s) ≫= as_task_definition;
  role ← deref stacks (task_role td) ≫= as_role;
  images ← mapM (fun c => deref stacks (Cdk.image c) ≫= as_image) (containers td);
  logs ← mapM (fun c => deref stacks (log_group (logging c)) ≫= as_log_group)
           (containers td);
  Some (mkServiceGroup s td role images logs
          (attached_target_groups (children st) (mkHandle compute service_path))).

(** A context value counts as given when it is there and truthy. *)
Definition present_and_truthy (ctx : gmap string pyval) (key : string) : Prop :=
  ∃ v, ctx !! key = Some v ∧ truthy v = true.

(** Two contexts that agree everywhere except, possibly, at [key]. *)
Definition differ_only_at (key : string) (ctx1 ctx2 : gmap string pyval) : Prop :=
  ∀ k, k ≠ key → ctx1 !! k = ctx2 !! k.

End Synth.

(** ** Running the compute stack's body in a stack that is not empty *)

Module Reuse.

(** Is the path already in use? *)
Definition taken (st : store) (p : string) : bool :=
  match find_child st p with Some _ => true | None => false end.

(** The paths [ComputeStack.body] enters, in the order it enters them:
    what it leaves in an empty stack. *)
Definition compute_paths : list string :=
  Eval lazy in
    match ComputeStack.body (mkSelf "" ∅ (mkEnvironment PyNone PyNone))
            (mkHandle "" "") (mkHandle "" "") [] with
    | inr (_, l) => child_paths l
    | inl _ => []
    end.

(** Failing on the first of [paths] that is in use, and otherwise
    returning [a] with [new] entered after what was there. *)
Definition outcome {A} (st : store) (paths : list string) (a : A) (new : store)
    : error + (A * store) :=
  match List.find (taken st) paths with
  | Some p => inl (AlreadyExists p)
  | None => inr (a, st ++ new)
  end.

(** [m], started in a stack that holds [st] followed by [l], where the
    paths in [created] are known to be free in [st], ends as [outcome]
    says. *)
Definition runs_as {A} (m : M A) (st l : store) (created paths : list string)
    (a : A) (new : store) : Prop :=
  forallb (λ p, negb (taken st p)) created = true →
  m (st ++ l) = outcome st paths a new.

(** A stack identity and two foreign handles to run examples with. *)
Definition sample_self : self_t := mkSelf "Stack" ∅ (mkEnvironment PyNone PyNone).
Definition sample_vpc : handle := mkHandle "Net" "Vpc".
Definition sample_table : handle := mkHandle "Data" "Table".

(** The network a construct is placed in, for those that are. *)
Definition vpc_of (c : construct) : option handle :=
  match c with
  | CCluster x => Some (cluster_vpc x)
  | CSecurityGroup x => Some (sg_vpc x)
  | CLoadBalancer x => Some (alb_vpc x)
  | CTargetGroup x => Some (tg_vpc x)
  | _ => None
  end.

End Reuse.

(** ** Wiring: what a construct refers to *)

Module Wiring.

Definition kind (c : construct) : string :=
  match c with
  | CVpc _ => "Vpc"
  | CTable _ => "Table"
  | COutput _ => "Output"
  | CCluster _ => "Cluster"
  | CSecurityGroup _ => "SecurityGroup"
  | CLoadBalancer _ => "LoadBalancer"
  | CListener _ => "Listener"
  | CTargetGroup _ => "TargetGroup"
  | CImage _ => "Image"
  | CRole _ => "Role"
  | CLogGroup _ => "LogGroup"
  | CTaskDef _ => "TaskDef"
  | CService _ => "Service"
  | CParameter _ => "Parameter"
  end.

Definition action_targets (a : ListenerAction) : list handle :=
  match a with forward tgs => tgs end.

(** Every object a construct holds a reference to, with the kind of
    object the reference is used as. *)
Definition references (c : construct) : list (handle * string) :=
  match c with
  | CCluster x => [(cluster_vpc x, "Vpc")]
  | CSecurityGroup x =>
      (sg_vpc x, "Vpc")
      :: omap (λ r, match ir_peer r with
                    | peer_security_group g => Some (g, "SecurityGroup")
                    | any_ipv4 => None
                    end) (ingress_rules x)
  | CLoadBalancer x => [(alb_vpc x, "Vpc"); (alb_security_group x, "SecurityGroup")]
  | CListener x =>
      map (λ h, (h, "TargetGroup"))
          (action_targets (default_action x)
           ++ flat_map (λ r, action_targets (rule_action r)) (rules x))
  | CTargetGroup x => (tg_vpc x, "Vpc") :: map (λ h, (h, "Service")) (targets x)
  | CTaskDef x =>
      (task_role x, "Role")
      :: flat_map (λ c, [(image c, "Image"); (log_group (logging c), "LogGroup")])
                  (containers x)
  | CService x =>
      (cluster x, "Cluster") :: (task_definition x, "TaskDef")
      :: map (λ h, (h, "SecurityGroup")) (security_groups x)
  | _ => []
  end.

(** The attributes of other constructs a construct's values mention. *)
Definition value_atoms (v : value) : list atom :=
  match v with
  | VAtom a => [a]
  | VFStr parts => omap (λ p, match p with FSub a => Some a | FLit _ => None end) parts
  end.

Definition values_of (c : construct) : list value :=
  match c with
  | COutput o => out_value o :: match export_name o with Some v => [v] | None => [] end
  | CRole r => flat_map resources (policy r)
  | CTaskDef td => flat_map (λ c, map snd (environment c)) (containers td)
  | CParameter p => [string_value p]
  | _ => []
  end.

Definition attribute_owners (c : construct) : list string :=
  omap (λ a, match a with AAttr owner _ => Some owner | _ => None end)
       (flat_map value_atoms (values_of c)).

(** The name under which attributes of a construct are mentioned. *)
Definition path_of (h : handle) : string :=
  String.append (h_stack h) (String.append "/" (h_path h)).

Definition handle_resolves (stacks : list Stack) (r : handle * string) : bool :=
  match Synth.deref stacks (fst r) with
  | Some c => String.eqb (kind c) (snd r)
  | None => false
  end.

Definition all_paths (stacks : list Stack) : list string :=
  flat_map (λ s, map (λ pc, String.append (stack_id s) (String.append "/" (fst pc)))
                     (children s)) stacks.

(** No reference, no mentioned attribute and no declared dependency of
    any stack points at something that is not there. *)
Definition well_wired (stacks : list Stack) : bool :=
  forallb (λ s,
      forallb (λ d, match find_stack stacks d with Some _ => true | None => false end)
              (dependencies s)
      && forallb (λ pc,
             forallb (handle_resolves stacks) (references (snd pc))
             && forallb (λ o, existsb (String.eqb o) (all_paths stacks))
                        (attribute_owners (snd pc)))
           (children s))
    stacks.



End Wiring.

(** ** More ways of reading a synthesized app *)

Module Observe.

Definition as_output (c : construct) : option CfnOutput :=
  match c with COutput x => Some x | _ => None end.

Definition output (ctx : gmap string pyval) (stack path : string) : option CfnOutput :=
  Synth.construct_at ctx stack path ≫= as_output.

(** The environment of the one container of a service's task. *)
Definition container_of (ctx : gmap string pyval) (service_path : string)
    : option ContainerDefinition :=
  g ← Synth.service_group_of ctx service_path;
  match containers (Synth.g_task_definition g) with
  | [c] => Some c
  | _ => None
  end.

Definition env_lookup (key : string) (env : list (string * value)) : option value :=
  snd <$> List.find (λ kv, String.eqb (fst kv) key) env.

(** The path part of a URL of the shape scheme, host, path. *)
Definition url_path (v : value) : option string :=
  match v with
  | VFStr [FLit _; FSub _; FLit p] => Some p
  | _ => None
  end.

(** A target group without its targets and raw overrides. *)
Definition bare (g : ApplicationTargetGroup) : ApplicationTargetGroup :=
  mkApplicationTargetGroup (tg_vpc g) (tg_port g) (tg_protocol g) (target_type g)
    (health_check g) [] [].

(** The security groups of the compute stack. *)
Definition security_groups_of (stacks : list Stack) : list (string * SecurityGroup) :=
  match find_stack stacks Synth.compute with
  | Some s => omap (λ pc, match snd pc with
                          | CSecurityGroup g => Some (fst pc, g)
                          | _ => None
                          end) (children s)
  | None => []
  end.

Definition open_to_any (g : SecurityGroup) : bool :=
  existsb (λ r, match ir_peer r with any_ipv4 => true | _ => false end) (ingress_rules g).

(** The export names a stack's outputs claim. *)
Definition exports (s : Stack) : list value :=
  omap (λ pc, as_output (snd pc) ≫= export_name) (children s).

(** The names given to resources outright: of tables, log groups and
    parameters. *)
Definition physical_names (st : store) : list string :=
  omap (λ pc, match snd pc with
              | CTable x => Some (table_name x)
              | CLogGroup x => Some (log_group_name x)
              | CParameter x => Some (parameter_name x)
              | _ => None
              end) st.

End Observe.

(** * Properties *)

(** ** Truthiness and context lookups *)

Example truthy_string_false : truthy (PyStr "false") = true.
Proof. reflexivity. Qed.

Example truthy_zero : truthy (PyInt 0) = false.
Proof. reflexivity. Qed.

Example truthy_negative_zero : truthy (PyFloat (-0)%float) = false.
Proof. vm_compute. reflexivity. Qed.

Lemma py_or_truthy a b : truthy a = true → py_or a b = a.
Proof. unfold py_or. by intros ->. Qed.

Lemma py_or_falsy a b : truthy a = false → py_or a b = b.
Proof. unfold py_or. by intros ->. Qed.

Lemma try_get_context_present (ctx : gmap string pyval) k v :
  ctx !! k = Some v → try_get_context ctx k = v.
Proof. unfold try_get_context. by intros ->. Qed.

Lemma try_get_context_absent (ctx : gmap string pyval) k :
  ctx !! k = None → try_get_context ctx k = PyNone.
Proof. unfold try_get_context. by intros ->. Qed.

Lemma try_get_context_same_lookup (ctx1 ctx2 : gmap string pyval) k :
  ctx1 !! k = ctx2 !! k → try_get_context ctx1 k = try_get_context ctx2 k.
Proof. unfold try_get_context. by intros ->. Qed.

Lemma present_and_truthy_spec (ctx : gmap string pyval) k :
  Synth.present_and_truthy ctx k ↔ truthy (try_get_context ctx k) = true.
Proof.
  unfold Synth.present_and_truthy, try_get_context. split.
  - intros (v & -> & Hv). exact Hv.
  - destruct (ctx !! k) as [v|] eqn:E; simpl; [eauto | discriminate].
Qed.

Lemma not_present_and_truthy_spec (ctx : gmap string pyval) k :
  ¬ Synth.present_and_truthy ctx k ↔ truthy (try_get_context ctx k) = false.
Proof.
  rewrite present_and_truthy_spec. destruct (truthy _); split; congruence.
Qed.

Lemma differ_only_at_agree key (ctx1 ctx2 : gmap string pyval) k :
  Synth.differ_only_at key ctx1 ctx2 → k ≠ key →
  try_get_context ctx1 k = try_get_context ctx2 k.
Proof. intros H Hk. apply try_get_context_same_lookup, H, Hk. Qed.

(** ** The construct store *)

Lemma find_child_app st1 st2 path :
  find_child (st1 ++ st2) path =
  match find_child st1 path with
  | Some c => Some c
  | None => find_child st2 path
  end.
Proof.
  induction st1 as [|[p c] st1 IH]; simpl; [done|].
  destruct (String.eqb p path); [done | apply IH].
Qed.

Lemma find_child_None st path :
  find_child st path = None ↔ path ∉ child_paths st.
Proof.
  induction st as [|[p c] st IH]; simpl.
  - split; [intros _; apply not_elem_of_nil | done].
  - destruct (String.eqb_spec p path) as [->|Hne].
    + split; [discriminate | intros H; exfalso; apply H; left].
    + rewrite IH, not_elem_of_cons. split; [intros H; split; [congruence | exact H] | intros [_ H]; exact H].
Qed.

Lemma replace_child_paths st path c :
  child_paths (replace_child st path c) = child_paths st.
Proof.
  induction st as [|[p c0] st IH]; simpl; [done|].
  destruct (String.eqb p path); simpl; [done | by rewrite IH].
Qed.

Lemma find_child_replace_ne st path path' c :
  path ≠ path' →
  find_child (replace_child st path c) path' = find_child st path'.
Proof.
  intros Hne. induction st as [|[p c0] st IH]; simpl; [done|].
  destruct (String.eqb_spec p path) as [->|Hp]; simpl.
  - destruct (String.eqb_spec path path'); [done | done].
  - destruct (String.eqb p path'); [done | apply IH].
Qed.

Lemma find_child_replace_eq st path c :
  is_Some (find_child st path) →
  find_child (replace_child st path c) path = Some c.
Proof.
  induction st as [|[p c0] st IH]; simpl; [intros [? ?]; done|].
  destruct (String.eqb_spec p path) as [->|Hp]; simpl.
  - by rewrite String.eqb_refl.
  - intros H. destruct (String.eqb_spec p path); [done | by apply IH].
Qed.

Lemma distinct_NoDup l : distinct l = true → NoDup l.
Proof.
  induction l as [|x l IH]; simpl; [intros _; apply NoDup_nil_2|].
  intros [Hx Hl]%andb_true_iff. apply NoDup_cons. split; [|by apply IH].
  intros Hin. apply negb_true_iff in Hx.
  assert (existsb (String.eqb x) l = true) as E; [|congruence].
  apply existsb_exists. exists x. split; [by apply list_elem_of_In|].
  apply String.eqb_refl.
Qed.

(** A new construct is entered last, under a path no sibling has, and
    leaves every sibling as it was. *)
Lemma new_construct_fresh self id c st :
  find_child st id = None →
  new_construct self id c st = inr (mkHandle (self_id self) id, st ++ [(id, c)]).
Proof. unfold new_construct. by intros ->. Qed.

Lemma new_construct_taken self id c st :
  is_Some (find_child st id) →
  new_construct self id c st = inl (AlreadyExists id).
Proof. unfold new_construct. by intros [? ->]. Qed.

Lemma new_construct_nodup self id c st h st' :
  NoDup (child_paths st) →
  new_construct self id c st = inr (h, st') →
  NoDup (child_paths st') ∧ h_path h = id ∧ find_child st' id = Some c.
Proof.
  unfold new_construct. intros Hnd.
  destruct (find_child st id) eqn:E; [discriminate|].
  intros [= <- <-]. split_and!; [|done|].
  - unfold child_paths. rewrite map_app. simpl.
    apply NoDup_app. split_and!; [done| |apply NoDup_singleton].
    intros x Hx ->%list_elem_of_singleton. by apply find_child_None in E.
  - rewrite find_child_app, E. simpl. by rewrite String.eqb_refl.
Qed.

(** A mutation through a reference reaches only the referenced object:
    role policies are separate per role. *)
Lemma add_to_policy_frame self role stmt st st' other :
  add_to_policy self role stmt st = inr (tt, st') →
  other ≠ h_path role →
  find_child st' other = find_child st other.
Proof.
  unfold add_to_policy, get_role, get, put, mbind, ST_bind, mret, ST_ret, raise.
  intros H Hne.
  destruct (String.eqb (h_stack role) (self_id self)); [|discriminate].
  destruct (find_child st (h_path role)) as [[]|]; try discriminate.
  injection H as <-. by apply find_child_replace_ne.
Qed.

(** ** The app as a whole *)

(** Evaluating a run of the app while leaving context lookups as they
    are: which constructs exist never depends on the context, only some
    of their properties do. *)
Ltac run_app := lazy -[try_get_context truthy].
Tactic Notation "run_app" "in" hyp(H) := lazy -[try_get_context truthy] in H.

(** Synthesis never fails, whatever the context holds. *)
Lemma synth_total (ctx : gmap string pyval) : is_Some (Synth.stacks_of ctx).
Proof. run_app. by eexists. Qed.

(** No two constructs of a stack share a path. *)
Lemma synth_paths_unique (ctx : gmap string pyval) stacks s :
  Synth.stacks_of ctx = Some stacks → s ∈ stacks →
  NoDup (child_paths (children s)).
Proof.
  intros H. run_app in H. injection H as <-. intros Hs.
  rewrite !elem_of_cons, elem_of_nil in Hs.
  destruct Hs as [->|[->|[->|[]]]]; apply distinct_NoDup; reflexivity.
Qed.

(** C7: for every context, one run of the app leaves exactly three stacks
    under the app, one of class NetworkStack, one of class DataStack and
    one of class ComputeStack, under distinct ids; the network stack holds
    the one VPC and the data stack the one table; the compute stack's
    declared dependencies are exactly the network stack and the data stack,
    and neither of those depends on anything. *)
Theorem C7_one_stack_of_each_kind (ctx : gmap string pyval) :
  ∃ net dat comp,
    app.synth ctx = inr [net; dat; comp] ∧
    stack_class net = "NetworkStack" ∧
    stack_class dat = "DataStack" ∧
    stack_class comp = "ComputeStack" ∧
    NoDup [stack_id net; stack_id dat; stack_id comp] ∧
    length (omap (λ pc, Synth.as_vpc (snd pc)) (children net)) = 1%nat ∧
    length (omap (λ pc, Synth.as_table (snd pc)) (children dat)) = 1%nat ∧
    dependencies comp = [stack_id net; stack_id dat] ∧
    dependencies net = [] ∧
    dependencies dat = [].
Proof.
  do 3 eexists. split; [run_app; reflexivity|].
  split_and!; try reflexivity.
  apply distinct_NoDup; reflexivity.
Qed.

(** ** The data stack *)

Lemma table_declared (ctx : gmap string pyval) :
  Synth.table ctx =
  Some {| table_name := "wordbash_games";
          partition_key := {| attr_name := "game_id"; attr_type := STRING |};
          sort_key := None;
          billing_mode := PAY_PER_REQUEST;
          removal_policy := py_if (try_get_context ctx "keep_data") RETAIN DESTROY |}.
Proof. run_app. reflexivity. Qed.

(** C1: for every context, the synthesized table's removal policy is
    RETAIN exactly when the context holds a truthy value under "keep_data",
    and DESTROY exactly when it does not; two contexts with the same
    "keep_data" entry give the same table declaration, whatever else they
    hold. *)
Theorem C1_removal_policy_follows_keep_data (ctx : gmap string pyval) :
  (removal_policy <$> Synth.table ctx = Some RETAIN
     ↔ Synth.present_and_truthy ctx "keep_data") ∧
  (removal_policy <$> Synth.table ctx = Some DESTROY
     ↔ ¬ Synth.present_and_truthy ctx "keep_data") ∧
  (∀ ctx' : gmap string pyval,
     ctx' !! "keep_data" = ctx !! "keep_data" → Synth.table ctx' = Synth.table ctx).
Proof.
  split_and!.
  - rewrite present_and_truthy_spec, table_declared. simpl. unfold py_if.
    destruct (truthy _); split; congruence.
  - rewrite not_present_and_truthy_spec, table_declared. simpl. unfold py_if.
    destruct (truthy _); split; congruence.
  - intros ctx' H. rewrite !table_declared.
    by rewrite (try_get_context_same_lookup ctx' ctx _ H).
Qed.

Lemma C1_removal_policy_witness :
  removal_policy <$> Synth.table {[ "keep_data" := PyStr "false" ]} = Some RETAIN ∧
  removal_policy <$> Synth.table {[ "region" := PyStr "eu-west-1" ]} = Some DESTROY ∧
  Synth.table (<[ "region" := PyStr "eu-west-1" ]> {[ "keep_data" := PyInt 1 ]})
    = Synth.table {[ "keep_data" := PyInt 1 ]}.
Proof.
  split_and!.
  - apply (C1_removal_policy_follows_keep_data {[ "keep_data" := PyStr "false" ]}).
    exists (PyStr "false"). split; reflexivity.
  - apply (C1_removal_policy_follows_keep_data {[ "region" := PyStr "eu-west-1" ]}).
    intros (v & Hv & _). vm_compute in Hv. discriminate Hv.
  - apply (C1_removal_policy_follows_keep_data {[ "keep_data" := PyInt 1 ]}).
    reflexivity.
Defined.

(** ** Image build contexts *)

(** C9: the build-context directory of the web image is "../web" when the
    context has no truthy "web_image_path", and is that context value
    itself otherwise; likewise "../game" and "game_image_path" for the game
    image.  Each service's container is built from its own image. *)
Theorem C9_image_path_defaults (ctx : gmap string pyval) :
  (¬ Synth.present_and_truthy ctx "web_image_path" →
     directory <$> Synth.image ctx "WebImage" = Some (PyStr "../web")) ∧
  (∀ v, ctx !! "web_image_path" = Some v → truthy v = true →
     directory <$> Synth.image ctx "WebImage" = Some v) ∧
  (¬ Synth.present_and_truthy ctx "game_image_path" →
     directory <$> Synth.image ctx "GameImage" = Some (PyStr "../game")) ∧
  (∀ v, ctx !! "game_image_path" = Some v → truthy v = true →
     directory <$> Synth.image ctx "GameImage" = Some v) ∧
  (Synth.g_images <$> Synth.service_group_of ctx "WebService"
     = (λ i, [i]) <$> Synth.image ctx "WebImage") ∧
  (Synth.g_images <$> Synth.service_group_of ctx "GameService"
     = (λ i, [i]) <$> Synth.image ctx "GameImage").
Proof.
  split_and!.
  - intros H%not_present_and_truthy_spec. run_app. by rewrite H.
  - intros v Hv Ht. apply try_get_context_present in Hv. run_app.
    by rewrite Hv, Ht.
  - intros H%not_present_and_truthy_spec. run_app. by rewrite H.
  - intros v Hv Ht. apply try_get_context_present in Hv. run_app.
    by rewrite Hv, Ht.
  - run_app. reflexivity.
  - run_app. reflexivity.
Qed.

Lemma C9_image_path_witness :
  directory <$> Synth.image ∅ "WebImage" = Some (PyStr "../web") ∧
  directory <$> Synth.image {[ "web_image_path" := PyStr "" ]} "WebImage"
    = Some (PyStr "../web") ∧
  directory <$> Synth.image {[ "web_image_path" := PyStr "/srv/web" ]} "WebImage"
    = Some (PyStr "/srv/web") ∧
  directory <$> Synth.image {[ "web_image_path" := PyStr "/srv/web" ]} "GameImage"
    = Some (PyStr "../game") ∧
  directory <$> Synth.image {[ "game_image_path" := PyStr "/srv/game" ]} "GameImage"
    = Some (PyStr "/srv/game").
Proof.
  split_and!.
  - apply (proj1 (C9_image_path_defaults ∅)).
    intros (v & Hv & _). vm_compute in Hv. discriminate Hv.
  - apply (proj1 (C9_image_path_defaults {[ "web_image_path" := PyStr "" ]})).
    intros (v & Hv & Ht). vm_compute in Hv. injection Hv as <-. discriminate Ht.
  - apply (proj1 (proj2 (C9_image_path_defaults
                           {[ "web_image_path" := PyStr "/srv/web" ]})));
      reflexivity.
  - apply (proj1 (proj2 (proj2 (C9_image_path_defaults
                                  {[ "web_image_path" := PyStr "/srv/web" ]})))).
    intros (v & Hv & _). vm_compute in Hv. discriminate Hv.
  - apply (proj1 (proj2 (proj2 (proj2 (C9_image_path_defaults
                                         {[ "game_image_path" := PyStr "/srv/game" ]})))));
      reflexivity.
Defined.

(** ** Wildcard patterns *)

Lemma glob_star s : glob "*" s = true.
Proof.
  induction s as [|c s IH]; [reflexivity|].
  change (glob "*" (String c s)) with (glob "" (String c s) || glob "*" s).
  rewrite IH. apply orb_true_r.
Qed.

Lemma glob_literal_cons c pat d s :
  literal_char c = true →
  glob (String c pat) (String d s) = Ascii.eqb c d && glob pat s.
Proof.
  unfold literal_char. intros [H1 H2]%andb_true_iff.
  apply negb_true_iff in H1, H2. simpl. by rewrite H1, H2.
Qed.

Lemma glob_literal_nil c pat :
  literal_char c = true → glob (String c pat) "" = false.
Proof.
  unfold literal_char. intros [H1 H2]%andb_true_iff.
  apply negb_true_iff in H1, H2. simpl. by rewrite H1, H2.
Qed.

(** A literal followed by [*] matches exactly the strings that start
    with the literal. *)
Lemma glob_literal_star lit s :
  forallb literal_char (String.list_ascii_of_string lit) = true →
  glob (String.append lit "*") s = String.prefix lit s.
Proof.
  revert s. induction lit as [|c lit IH]; intros s Hlit.
  - simpl String.append. rewrite glob_star. by destruct s.
  - simpl in Hlit. apply andb_true_iff in Hlit as [Hc Hlit].
    change (String.append (String c lit) "*") with (String c (String.append lit "*")).
    destruct s as [|d s].
    + by rewrite glob_literal_nil.
    + rewrite glob_literal_cons by done. rewrite IH by done. simpl.
      destruct (ascii_dec c d) as [->|Hne].
      * by rewrite Ascii.eqb_refl.
      * apply Ascii.eqb_neq in Hne. by rewrite Hne.
Qed.

Lemma glob_ws path : glob "/ws/*" path = String.prefix "/ws/" path.
Proof. by apply (glob_literal_star "/ws/"). Qed.

(** ** The listener *)

Lemma listener_declared (ctx : gmap string pyval) :
  Synth.listener ctx "WordBashALB/HttpListener" =
  Some {| listener_port := 80;
          listener_protocol := HTTP;
          default_action := forward [mkHandle Synth.compute "WebTargetGroup"];
          rules := [ {| rule_id := "WebSocketRuleRule";
                        priority := 100;
                        conditions := [path_patterns ["/ws/*"]];
                        rule_action :=
                          forward [mkHandle Synth.compute "GameTargetGroup"] |} ] |}.
Proof. run_app. reflexivity. Qed.

(** C2: for every context the HTTP listener has exactly one rule; it is a
    path-pattern rule on /ws/* that forwards to the game target group,
    while the default action forwards to the web target group.  The rule's
    priority, 100, lies in the range of explicit priorities and so ranks
    before the default action; accordingly every request whose path starts
    with /ws/ is forwarded to the game target group and every other request
    to the web target group. *)
Theorem C2_ws_rule_precedes_default (ctx : gmap string pyval) :
  ∃ l r,
    Synth.listener ctx "WordBashALB/HttpListener" = Some l ∧
    rules l = [r] ∧
    List.filter Listener.is_path_rule (rules l) = [r] ∧
    conditions r = [path_patterns ["/ws/*"]] ∧
    rule_action r = forward [mkHandle Synth.compute "GameTargetGroup"] ∧
    default_action l = forward [mkHandle Synth.compute "WebTargetGroup"] ∧
    is_Some (Synth.target_group ctx "GameTargetGroup") ∧
    is_Some (Synth.target_group ctx "WebTargetGroup") ∧
    priority r = 100 ∧
    1 ≤ priority r ≤ Listener.max_rule_priority ∧
    Listener.rank_ltb (Listener.Explicit (priority r)) Listener.AfterAll = true ∧
    (∀ path, String.prefix "/ws/" path = true →
       Listener.route l path = forward [mkHandle Synth.compute "GameTargetGroup"]) ∧
    (∀ path, String.prefix "/ws/" path = false →
       Listener.route l path = forward [mkHandle Synth.compute "WebTargetGroup"]).
Proof.
  do 2 eexists. split; [apply listener_declared|].
  split_and!; try reflexivity; try (run_app; by eexists).
  - simpl. lia.
  - unfold Listener.max_rule_priority. simpl. lia.
  - intros path H. unfold Listener.route.
    cbn -[glob String.prefix]. by rewrite glob_ws, H.
  - intros path H. unfold Listener.route.
    cbn -[glob String.prefix]. by rewrite glob_ws, H.
Qed.

Lemma C2_ws_rule_witness :
  ∃ l, Synth.listener ∅ "WordBashALB/HttpListener" = Some l ∧
       Listener.route l "/ws/game/42"
         = forward [mkHandle Synth.compute "GameTargetGroup"] ∧
       Listener.route l "/ws"
         = forward [mkHandle Synth.compute "WebTargetGroup"] ∧
       Listener.route l "/index.html"
         = forward [mkHandle Synth.compute "WebTargetGroup"].
Proof.
  destruct (C2_ws_rule_precedes_default ∅)
    as (l & r & Hl & _ & _ & _ & _ & _ & _ & _ & _ & _ & _ & Hws & Hother).
  exists l. split_and!; [exact Hl | apply Hws | apply Hother | apply Hother];
    reflexivity.
Defined.

(** ** Target groups *)

(** C3: for every context the game target group carries exactly one raw
    property override, the TargetGroupAttributes list with the three
    entries deregistration_delay.timeout_seconds = 30, stickiness.enabled =
    true and stickiness.type = lb_cookie, and the web target group carries
    no property override at all.  Each group has its own service as its
    only target. *)
Theorem C3_game_target_group_overrides (ctx : gmap string pyval) :
  ∃ game web,
    Synth.target_group ctx "GameTargetGroup" = Some game ∧
    Synth.target_group ctx "WebTargetGroup" = Some web ∧
    map fst (property_overrides game) = ["TargetGroupAttributes"] ∧
    Synth.attribute_overrides game
      = Some [ ("deregistration_delay.timeout_seconds", "30");
               ("stickiness.enabled", "true");
               ("stickiness.type", "lb_cookie") ] ∧
    property_overrides web = [] ∧
    Synth.attribute_overrides web = Some [] ∧
    targets game = [mkHandle Synth.compute "GameService"] ∧
    targets web = [mkHandle Synth.compute "WebService"].
Proof.
  do 2 eexists. split; [run_app; reflexivity|]. split; [run_app; reflexivity|].
  split_and!; reflexivity.
Qed.

(** ** Auto scaling *)

(** C4: for every context the web service and the game service each
    scale between 1 and 4 tasks on a single CPU-utilization policy with a
    target of 50 percent; no context value enters these figures. *)
Theorem C4_scaling_bounds (ctx : gmap string pyval) :
  scaling <$> Synth.service ctx "WebService"
    = Some (Some {| min_capacity := 1;
                    max_capacity := 4;
                    cpu_policies := [("WebCpuScaling", 50)] |}) ∧
  scaling <$> Synth.service ctx "GameService"
    = Some (Some {| min_capacity := 1;
                    max_capacity := 4;
                    cpu_policies := [("GameCpuScaling", 50)] |}).
Proof. split; run_app; reflexivity. Qed.

(** ** The parameter-store grant *)

(** C5: for every context the stack publishes a parameter named
    /wordbash/ws_endpoint; the task role reached from the web service has
    exactly one statement that allows ssm:GetParameter, and that statement
    names exactly this parameter (in the stack's region and account) as its
    resource; the task role reached from the game service has no statement
    that allows ssm:GetParameter. *)
Theorem C5_parameter_read_grant (ctx : gmap string pyval) :
  let env := {| account := try_get_context ctx "account";
                region := try_get_context ctx "region" |} in
  ∃ p web game,
    Synth.parameter ctx "WsEndpointParam" = Some p ∧
    parameter_name p = "/wordbash/ws_endpoint" ∧
    Synth.task_role_of ctx "WebService" = Some web ∧
    Synth.task_role_of ctx "GameService" = Some game ∧
    List.filter (λ s, Iam.allows_action s "ssm:GetParameter") (policy web)
      = [ {| actions := ["ssm:GetParameter"];
             resources := [Iam.parameter_arn (stack_region env) (stack_account env)
                             (parameter_name p)] |} ] ∧
    List.filter (λ s, Iam.allows_action s "ssm:GetParameter") (policy game) = [].
Proof.
  intros env. do 3 eexists.
  split; [run_app; reflexivity|]. split; [reflexivity|].
  split; [run_app; reflexivity|]. split; [run_app; reflexivity|].
  split; reflexivity.
Qed.

(** ** Inbound traffic to the services *)

Lemma handle_eqb_eq a b : handle_eqb a b = true ↔ a = b.
Proof.
  unfold handle_eqb. destruct a as [s1 p1], b as [s2 p2]. simpl.
  rewrite andb_true_iff, !String.eqb_eq. split; [by intros [-> ->] | by intros [= -> ->]].
Qed.

(** C10: for every context both services are placed in the one service
    security group, whose only ingress rule lets in TCP port 8080 from the
    load balancer's security group.  So whatever that group lets in is TCP
    on port 8080 and comes from a member of the load balancer's group, and
    nothing coming from a host outside every security group is let in. *)
Theorem C10_service_ingress (ctx : gmap string pyval) :
  ∃ g alb,
    Synth.security_group ctx "ServiceSecurityGroup" = Some g ∧
    Synth.load_balancer ctx "WordBashALB" = Some alb ∧
    security_groups <$> Synth.service ctx "WebService"
      = Some [mkHandle Synth.compute "ServiceSecurityGroup"] ∧
    security_groups <$> Synth.service ctx "GameService"
      = Some [mkHandle Synth.compute "ServiceSecurityGroup"] ∧
    ingress_rules g
      = [ {| ir_peer := peer_security_group (alb_security_group alb);
             ir_port := tcp 8080 |} ] ∧
    (∀ c, Firewall.allows g c = true →
       Firewall.conn_protocol c = Firewall.TCP ∧
       Firewall.dest_port c = 8080 ∧
       alb_security_group alb ∈ Firewall.source_groups c) ∧
    (∀ c, Firewall.from_internet c = true → Firewall.allows g c = false).
Proof.
  do 2 eexists.
  split; [run_app; reflexivity|]. split; [run_app; reflexivity|].
  split; [run_app; reflexivity|]. split; [run_app; reflexivity|].
  split; [reflexivity|]. split.
  - intros [groups proto port]. unfold Firewall.allows, Firewall.port_matches.
    cbn -[Z.eqb]. rewrite orb_false_r, andb_true_iff.
    intros [Hsrc Hport]. destruct proto; try discriminate.
    apply Z.eqb_eq in Hport as <-. split_and!; [done..|].
    apply existsb_exists in Hsrc as (h & Hin & <-%handle_eqb_eq).
    by apply list_elem_of_In.
  - intros [[|h groups] proto port]; [reflexivity | discriminate].
Qed.

Lemma C10_service_ingress_witness :
  ∃ g, Synth.security_group ∅ "ServiceSecurityGroup" = Some g ∧
       Firewall.allows g (Firewall.mkConnection [] Firewall.TCP 8080) = false ∧
       Firewall.allows g
         (Firewall.mkConnection [mkHandle Synth.compute "AlbSecurityGroup"]
            Firewall.TCP 8080) = true ∧
       mkHandle Synth.compute "AlbSecurityGroup"
         ∈ [mkHandle Synth.compute "AlbSecurityGroup"].
Proof.
  destruct (C10_service_ingress ∅) as (g & alb & Hg & Halb & _ & _ & Hrules & Hin & Hout).
  exists g.
  assert (alb_security_group alb = mkHandle Synth.compute "AlbSecurityGroup") as Ealb.
  { vm_compute in Halb. by injection Halb as <-. }
  assert (Firewall.allows g
            (Firewall.mkConnection [mkHandle Synth.compute "AlbSecurityGroup"]
               Firewall.TCP 8080) = true) as Hallowed.
  { unfold Firewall.allows. rewrite Hrules, Ealb. reflexivity. }
  split_and!; [exact Hg | by apply Hout | exact Hallowed |].
  destruct (Hin _ Hallowed) as (_ & _ & Hmember).
  rewrite Ealb in Hmember. exact Hmember.
Defined.

(** ** Independence of the two service groups *)

(** C6: take two contexts that agree on every key other than
    "web_image_path".  Then everything declared for the game service group
    (the service with its scaling, its task definition with container and
    environment, its task role, image, log group and target group) is the
    same in both syntheses.  Symmetrically, two contexts that agree on every
    key other than "game_image_path" give the same web service group. *)
Theorem C6_image_path_frame (ctx1 ctx2 : gmap string pyval) :
  is_Some (Synth.service_group_of ctx1 "GameService") ∧
  is_Some (Synth.service_group_of ctx1 "WebService") ∧
  (Synth.differ_only_at "web_image_path" ctx1 ctx2 →
     Synth.service_group_of ctx1 "GameService"
       = Synth.service_group_of ctx2 "GameService") ∧
  (Synth.differ_only_at "game_image_path" ctx1 ctx2 →
     Synth.service_group_of ctx1 "WebService"
       = Synth.service_group_of ctx2 "WebService").
Proof.
  split_and!.
  - run_app. by eexists.
  - run_app. by eexists.
  - intros H. run_app.
    rewrite (differ_only_at_agree _ _ _ "region" H) by discriminate.
    rewrite (differ_only_at_agree _ _ _ "game_image_path" H) by discriminate.
    reflexivity.
  - intros H. run_app.
    rewrite (differ_only_at_agree _ _ _ "region" H) by discriminate.
    rewrite (differ_only_at_agree _ _ _ "account" H) by discriminate.
    rewrite (differ_only_at_agree _ _ _ "api_base_url" H) by discriminate.
    rewrite (differ_only_at_agree _ _ _ "web_image_path" H) by discriminate.
    reflexivity.
Qed.

Lemma C6_image_path_frame_witness :
  Synth.service_group_of {[ "web_image_path" := PyStr "/srv/a" ]} "GameService"
    = Synth.service_group_of {[ "web_image_path" := PyStr "/srv/b" ]} "GameService" ∧
  Synth.service_group_of {[ "game_image_path" := PyStr "/srv/a" ]} "WebService"
    = Synth.service_group_of ∅ "WebService".
Proof.
  split.
  - refine (proj1 (proj2 (proj2 (C6_image_path_frame
                                   {[ "web_image_path" := PyStr "/srv/a" ]}
                                   {[ "web_image_path" := PyStr "/srv/b" ]}))) _).
    intros k Hk. by rewrite !lookup_singleton_ne.
  - refine (proj2 (proj2 (proj2 (C6_image_path_frame
                                   {[ "game_image_path" := PyStr "/srv/a" ]} ∅))) _).
    intros k Hk. by rewrite lookup_singleton_ne, lookup_empty.
Defined.

(** ** The network *)

Lemma vpc_declared (ctx : gmap string pyval) :
  Synth.vpc ctx =
  Some {| max_azs := 2;
          nat_gateways := 1;
          subnet_configuration :=
            [ {| sc_name := "Public"; sc_subnet_type := PUBLIC; sc_cidr_mask := 24 |};
              {| sc_name := "Private"; sc_subnet_type := PRIVATE_WITH_EGRESS;
                 sc_cidr_mask := 24 |} ] |}.
Proof. run_app. reflexivity. Qed.

(** With a single gateway every choice falls on it. *)
Lemma pick_single g zone : Network.pick [g] zone 0 = Some (0%nat, 0%nat).
Proof. unfold Network.pick. simpl. by destruct (Nat.eqb g zone). Qed.

Lemma place_group_single cfg g zs :
  ∃ l, Network.place_group cfg [g] zs 0 = Some (l, 0%nat) ∧
       length l = length zs ∧
       Forall (λ s, Network.subnet_type s = sc_subnet_type cfg ∧
                    Network.cidr_mask s = sc_cidr_mask cfg ∧
                    (Network.subnet_type s = PRIVATE_WITH_EGRESS →
                     Network.default_route s = Network.NatGateway 0)) l.
Proof.
  induction zs as [|[i z] zs (l & IH & Hlen & Hall)].
  - exists []. by split_and!.
  - simpl. destruct (sc_subnet_type cfg) eqn:Ety.
    + rewrite IH. simpl. eexists. split_and!; [done | by simpl; f_equal |].
      apply Forall_cons. split; [by split_and! | done].
    + rewrite pick_single. simpl. rewrite IH. simpl.
      eexists. split_and!; [done | by simpl; f_equal |].
      apply Forall_cons. split; [by split_and! | done].
    + rewrite IH. simpl. eexists. split_and!; [done | by simpl; f_equal |].
      apply Forall_cons. split; [by split_and! | done].
Qed.

Lemma place_groups_single cfgs g zs :
  ∃ l, Network.place_groups cfgs [g] zs 0 = Some l ∧
       length l = (length cfgs * length zs)%nat ∧
       Forall (λ s, Network.subnet_type s = PRIVATE_WITH_EGRESS →
                    Network.default_route s = Network.NatGateway 0) l.
Proof.
  induction cfgs as [|cfg cfgs (l & IH & Hlen & Hall)].
  - exists []. by split_and!.
  - destruct (place_group_single cfg g zs) as (l0 & E0 & Hlen0 & Hall0).
    simpl. rewrite E0. simpl. rewrite IH. simpl.
    eexists. split_and!; [done | rewrite length_app; lia |].
    apply Forall_app. split; [|done].
    eapply Forall_impl; [exact Hall0|]. by intros s (_ & _ & H).
Qed.

(** C8: for every context the network stack declares one VPC with at most
    two zones, one NAT gateway, and one public and one private-with-egress
    subnet group, both with /24 blocks.  In an environment that offers at
    least two zones this stands for a network over the first two zones
    with exactly one public and one private subnet in each of them, four
    /24 subnets in all, exactly one NAT gateway, and the default route of
    every private subnet going through that gateway. *)
Theorem C8_network_layout (ctx : gmap string pyval) (available_zones : list string) :
  (2 ≤ length available_zones)%nat →
  ∃ v n,
    Synth.vpc ctx = Some v ∧
    max_azs v = 2%nat ∧
    nat_gateways v = 1%nat ∧
    map (λ c, (sc_subnet_type c, sc_cidr_mask c)) (subnet_configuration v)
      = [(PUBLIC, 24); (PRIVATE_WITH_EGRESS, 24)] ∧
    Network.expand v available_zones = Some n ∧
    Network.zones n = take 2 available_zones ∧
    length (Network.zones n) = 2%nat ∧
    (∀ z, (z < 2)%nat →
       length (Network.subnets_in n PUBLIC z) = 1%nat ∧
       length (Network.subnets_in n PRIVATE_WITH_EGRESS z) = 1%nat) ∧
    length (Network.subnets n) = 4%nat ∧
    Forall (λ s, Network.cidr_mask s = 24) (Network.subnets n) ∧
    length (Network.nat_gateway_zones n) = 1%nat ∧
    Forall (λ s, Network.subnet_type s = PRIVATE_WITH_EGRESS →
                 Network.default_route s = Network.NatGateway 0)
           (Network.subnets n).
Proof.
  intros Hz. destruct available_zones as [|z0 [|z1 rest]]; simpl in Hz; try lia.
  do 2 eexists. split; [apply vpc_declared|].
  do 3 (split; [reflexivity|]).
  split; [reflexivity|]. split; [reflexivity|]. split; [reflexivity|].
  split.
  { intros [|[|z]] Hlt; [by split | by split | lia]. }
  split; [reflexivity|].
  split; [by repeat constructor|].
  split; [reflexivity|].
  destruct (place_groups_single
              [ {| sc_name := "Public"; sc_subnet_type := PUBLIC; sc_cidr_mask := 24 |};
                {| sc_name := "Private"; sc_subnet_type := PRIVATE_WITH_EGRESS;
                   sc_cidr_mask := 24 |} ]
              0%nat [(0%nat, z0); (1%nat, z1)]) as (l & El & _ & Hall).
  simpl in El. injection El as <-. exact Hall.
Qed.

Lemma C8_network_layout_witness :
  ∃ n, (Synth.vpc ∅ ≫= λ v, Network.expand v ["us-east-1a"; "us-east-1b"; "us-east-1c"])
         = Some n ∧
       Network.zones n = ["us-east-1a"; "us-east-1b"] ∧
       length (Network.subnets n) = 4%nat ∧
       length (Network.nat_gateway_zones n) = 1%nat.
Proof.
  destruct (C8_network_layout ∅ ["us-east-1a"; "us-east-1b"; "us-east-1c"])
    as (v & n & Hv & _ & _ & _ & Hn & Hzones & _ & _ & Hsubnets & _ & Hgw & _).
  - simpl. lia.
  - exists n. rewrite Hv. simpl. split_and!; [exact Hn | exact Hzones | exact Hsubnets | exact Hgw].
Defined.

(** * Further properties of the sources *)

(** ** The compute stack's body in a stack that already holds constructs *)

Lemma replace_child_app st l p c :
  Reuse.taken st p = false →
  replace_child (st ++ l) p c = st ++ replace_child l p c.
Proof.
  unfold Reuse.taken. induction st as [|[q c0] st IH]; simpl; [done|].
  destruct (String.eqb q p); [discriminate|]. intros H. by rewrite IH.
Qed.

Lemma created_fresh st created p :
  forallb (λ p, negb (Reuse.taken st p)) created = true →
  existsb (String.eqb p) created = true →
  Reuse.taken st p = false.
Proof.
  intros Hall (q & Hq & ->%String.eqb_eq)%existsb_exists.
  rewrite forallb_forall in Hall. apply Hall in Hq. by apply negb_true_iff in Hq.
Qed.

Lemma taken_app st l p :
  Reuse.taken (st ++ l) p = Reuse.taken st p || Reuse.taken l p.
Proof.
  unfold Reuse.taken. rewrite find_child_app. by destruct (find_child st p).
Qed.

Section Runs.

Context {A B : Type} (self : self_t) (st : store).

Lemma runs_start (m : M A) paths a new :
  Reuse.runs_as m st [] [] paths a new → m st = Reuse.outcome st paths a new.
Proof. intros H. rewrite <- (app_nil_r st) at 1. by apply H. Qed.

Lemma runs_ret (a : A) l created : Reuse.runs_as (mret a) st l created [] a l.
Proof. intros _. reflexivity. Qed.

Lemma runs_bind_ret (b : B) (k : B → M A) l created paths a new :
  Reuse.runs_as (k b) st l created paths a new →
  Reuse.runs_as (mret b ≫= k) st l created paths a new.
Proof. intros H Hc. apply (H Hc). Qed.

Lemma runs_bind_assoc {C} (m : M C) (k1 : C → M B) (k2 : B → M A)
    l created paths a new :
  Reuse.runs_as (m ≫= λ x, k1 x ≫= k2) st l created paths a new →
  Reuse.runs_as ((m ≫= k1) ≫= k2) st l created paths a new.
Proof.
  intros H Hc. rewrite <- (H Hc). unfold mbind, ST_bind.
  by destruct (m (st ++ l)) as [e|[x st']].
Qed.

Lemma runs_bind_new id c (k : handle → M A) l created paths a new :
  find_child l id = None →
  Reuse.runs_as (k (mkHandle (self_id self) id)) st (l ++ [(id, c)])
    (id :: created) paths a new →
  Reuse.runs_as (new_construct self id c ≫= k) st l created (id :: paths) a new.
Proof.
  intros Hl H Hc. unfold Reuse.outcome. simpl.
  unfold mbind, ST_bind, new_construct. rewrite find_child_app.
  unfold Reuse.taken in *. destruct (find_child st id) eqn:E; [done|].
  rewrite Hl, <- app_assoc. apply H. simpl. unfold Reuse.taken. by rewrite E.
Qed.

Lemma runs_bind_get p c (k : construct → M A) l created paths a new :
  existsb (String.eqb p) created = true →
  find_child l p = Some c →
  Reuse.runs_as (k c) st l created paths a new →
  Reuse.runs_as (get self (mkHandle (self_id self) p) ≫= k) st l created paths a new.
Proof.
  intros Hp Hl H Hc. unfold mbind, ST_bind, get. simpl.
  rewrite String.eqb_refl, find_child_app.
  pose proof (created_fresh _ _ _ Hc Hp) as Hf. unfold Reuse.taken in Hf.
  destruct (find_child st p); [done|]. rewrite Hl. by apply H.
Qed.

Lemma runs_bind_put s p c (k : unit → M A) l created paths a new :
  existsb (String.eqb p) created = true →
  Reuse.runs_as (k tt) st (replace_child l p c) created paths a new →
  Reuse.runs_as (put (mkHandle s p) c ≫= k) st l created paths a new.
Proof.
  intros Hp H Hc. unfold mbind, ST_bind, put. simpl.
  rewrite replace_child_app by by eapply created_fresh. by apply H.
Qed.

End Runs.

(** One step of a run: bring the statement at the head into the shape of
    one of the store operations, then follow it. *)
Ltac head_eval :=
  lazymatch goal with
  | |- Reuse.runs_as (?m ≫= ?k) ?st ?l ?cr ?ps ?a ?n =>
      let m' := eval lazy -[mbind mret new_construct get put raise
                                try_get_context truthy] in m in
      let l' := eval lazy -[try_get_context truthy] in l in
      change (Reuse.runs_as (m' ≫= k) st l' cr ps a n)
  | |- Reuse.runs_as ?m ?st ?l ?cr ?ps ?a ?n =>
      let m' := eval lazy -[mbind mret new_construct get put raise
                                try_get_context truthy] in m in
      let l' := eval lazy -[try_get_context truthy] in l in
      change (Reuse.runs_as m' st l' cr ps a n)
  end.

Ltac run_step :=
  cbv beta; head_eval;
  lazymatch goal with
  | |- Reuse.runs_as ((_ ≫= _) ≫= _) _ _ _ _ _ _ => apply runs_bind_assoc
  | |- Reuse.runs_as (mret _ ≫= _) _ _ _ _ _ _ => apply runs_bind_ret
  | |- Reuse.runs_as (new_construct _ _ _ ≫= _) _ _ _ _ _ _ =>
      apply runs_bind_new; [reflexivity|]
  | |- Reuse.runs_as (get _ _ ≫= _) _ _ _ _ _ _ =>
      eapply runs_bind_get; [reflexivity|reflexivity|]
  | |- Reuse.runs_as (put _ _ ≫= _) _ _ _ _ _ _ =>
      apply runs_bind_put; [reflexivity|]
  | |- Reuse.runs_as (mret _) _ _ _ _ _ _ => apply runs_ret
  end.

(** What the body enters does not depend on what the stack held, and it
    reaches the store only under its own paths. *)
Lemma body_declares self vpc table :
  ∃ new,
    (∀ st, ComputeStack.body self vpc table st
           = Reuse.outcome st Reuse.compute_paths tt new) ∧
    child_paths new = Reuse.compute_paths ∧
    omap (λ pc, Reuse.vpc_of (snd pc)) new = replicate 6 vpc ∧
    Observe.physical_names new
      = ["/aws/ecs/wordbash-web"; "/aws/ecs/wordbash-game"; "/wordbash/ws_endpoint"] ∧
    Forall (λ o, o = Wiring.path_of table
                 ∨ o = Wiring.path_of (mkHandle (self_id self) "WordBashALB"))
           (flat_map (λ pc, Wiring.attribute_owners (snd pc)) new).
Proof.
  eexists. split.
  - intros st. apply runs_start.
    unfold ComputeStack.body, Reuse.compute_paths.
    repeat run_step.
  - split; [reflexivity|]. split; [reflexivity|]. split; [reflexivity|].
    destruct self as [sid sctx [acc reg]].
    destruct acc, reg;
      repeat (apply Forall_cons; split; [by (left + right)|]); apply Forall_nil_2.
Qed.

Lemma taken_in_paths l p : p ∈ child_paths l → Reuse.taken l p = true.
Proof.
  intros Hin. unfold Reuse.taken.
  destruct (find_child l p) eqn:E; [done|]. by apply find_child_None in E.
Qed.

(** X1: whenever the body of the compute stack succeeds in a stack that
    already holds constructs, it leaves those constructs exactly as they
    were and enters after them the same constructs it enters in an empty
    stack. *)
Theorem compute_body_appends self vpc table st st' :
  ComputeStack.body self vpc table st = inr (tt, st') →
  ∃ new, ComputeStack.body self vpc table [] = inr (tt, new) ∧ st' = st ++ new.
Proof.
  destruct (body_declares self vpc table) as (new & Hrun & _).
  rewrite !Hrun. unfold Reuse.outcome. intros H. exists new. split; [reflexivity|].
  destruct (List.find _ _); [discriminate|]. by injection H as <-.
Qed.

Lemma compute_body_appends_witness :
  ∃ new,
    ComputeStack.body Reuse.sample_self Reuse.sample_vpc Reuse.sample_table []
      = inr (tt, new) ∧
    ComputeStack.body Reuse.sample_self Reuse.sample_vpc Reuse.sample_table
      [("Other", CCluster (mkCluster Reuse.sample_vpc))]
      = inr (tt, [("Other", CCluster (mkCluster Reuse.sample_vpc))] ++ new).
Proof.
  destruct (ComputeStack.body Reuse.sample_self Reuse.sample_vpc Reuse.sample_table
              [("Other", CCluster (mkCluster Reuse.sample_vpc))])
    as [e|[[] st']] eqn:E; [vm_compute in E; discriminate E|].
  destruct (compute_body_appends _ _ _ _ st' E) as (new & Hnew & ->).
  exists new. split; [exact Hnew | reflexivity].
Defined.



(** X3: the body of the compute stack cannot run twice in one stack:
    after a successful run, a second run, with whatever arguments, fails on
    the first path it enters, WordBashCluster. *)
Theorem compute_body_runs_once self vpc table self' vpc' table' st st' :
  ComputeStack.body self vpc table st = inr (tt, st') →
  ComputeStack.body self' vpc' table' st' = inl (AlreadyExists "WordBashCluster").
Proof.
  destruct (body_declares self vpc table) as (new & Hrun & Hpaths & _).
  destruct (body_declares self' vpc' table') as (new' & Hrun' & _).
  rewrite Hrun, Hrun'. unfold Reuse.outcome.
  destruct (List.find _ _); [discriminate|]. intros [= <-].
  assert (Reuse.taken (st ++ new) "WordBashCluster" = true) as Ht.
  { rewrite taken_app. apply orb_true_iff. right. apply taken_in_paths.
    rewrite Hpaths. unfold Reuse.compute_paths. apply list_elem_of_here. }
  unfold Reuse.compute_paths. cbn [List.find]. by rewrite Ht.
Qed.

Lemma compute_body_runs_once_witness :
  ∃ st',
    ComputeStack.body Reuse.sample_self Reuse.sample_vpc Reuse.sample_table []
      = inr (tt, st') ∧
    ComputeStack.body Reuse.sample_self Reuse.sample_vpc Reuse.sample_table st'
      = inl (AlreadyExists "WordBashCluster").
Proof.
  destruct (ComputeStack.body Reuse.sample_self Reuse.sample_vpc Reuse.sample_table [])
    as [e|[[] st']] eqn:E; [vm_compute in E; discriminate E|].
  exists st'. split; [reflexivity|].
  exact (compute_body_runs_once _ _ _ Reuse.sample_self Reuse.sample_vpc
           Reuse.sample_table [] st' E).
Defined.

(** X4: whatever network and table the compute stack is given, every
    construct it places in a network (the cluster, the load balancer, both
    security groups and both target groups) is placed in the given
    network, and the only objects whose attributes its outputs, policies,
    container environments and parameter mention are the given table and
    its own load balancer. *)
Theorem compute_body_uses_what_it_is_given self vpc table :
  ∃ new,
    ComputeStack.body self vpc table [] = inr (tt, new) ∧
    omap (λ pc, Reuse.vpc_of (snd pc)) new = replicate 6 vpc ∧
    Forall (λ o, o = Wiring.path_of table
                 ∨ o = Wiring.path_of (mkHandle (self_id self) "WordBashALB"))
           (flat_map (λ pc, Wiring.attribute_owners (snd pc)) new).
Proof.
  destruct (body_declares self vpc table) as (new & Hrun & _ & Hvpc & _ & Hattr).
  exists new. split; [|by split]. by rewrite Hrun.
Qed.

(** X15: the names the compute stack gives to its two log groups and to
    its parameter are fixed: they do not depend on the stack's id, on the
    context, on the environment or on the network and table it is given, so
    a second compute stack under another id claims the same three names. *)
Theorem compute_body_physical_names self vpc table :
  ∃ new,
    ComputeStack.body self vpc table [] = inr (tt, new) ∧
    Observe.physical_names new
      = ["/aws/ecs/wordbash-web"; "/aws/ecs/wordbash-game"; "/wordbash/ws_endpoint"].
Proof.
  destruct (body_declares self vpc table) as (new & Hrun & _ & _ & Hnames & _).
  exists new. split; [by rewrite Hrun | exact Hnames].
Qed.

(** ** Wiring of the synthesized app *)

(** X5: for every context, every reference a construct of the
    synthesized app holds resolves to a construct of the kind it is used as
    (a service's task definition to a task definition, a target group's
    target to a service, a listener action's target to a target group, and
    so on, across stacks for the network), every attribute mentioned in an
    output, policy, environment or parameter belongs to an existing
    construct, and every declared dependency names an existing stack. *)
Theorem synthesized_app_well_wired (ctx : gmap string pyval) :
  Wiring.well_wired <$> Synth.stacks_of ctx = Some true.
Proof.
  run_app.
  destruct (try_get_context ctx "region"), (try_get_context ctx "account");
    reflexivity.
Qed.


(** ** Ports, from the load balancer to the containers *)

(** X7: for every context and for each of the two services, the service
    is attached to exactly one target group, the port of that target group
    is the one port its container maps, and the security group the service
    is placed in lets in TCP traffic on that port from a member of the load
    balancer's security group: what the load balancer forwards, and its
    health checks, reach the container. *)
Theorem target_port_reaches_container (ctx : gmap string pyval) :
  ∃ alb sg,
    Synth.load_balancer ctx "WordBashALB" = Some alb ∧
    Synth.security_group ctx "ServiceSecurityGroup" = Some sg ∧
    ∀ name, name ∈ ["WebService"; "GameService"] →
      ∃ g tg,
        Synth.service_group_of ctx name = Some g ∧
        map snd (Synth.g_target_groups g) = [tg] ∧
        security_groups (Synth.g_service g)
          = [mkHandle Synth.compute "ServiceSecurityGroup"] ∧
        Firewall.allows sg
          (Firewall.mkConnection [alb_security_group alb] Firewall.TCP (tg_port tg))
          = true ∧
        map port_mappings (containers (Synth.g_task_definition g))
          = [[mkPortMapping (tg_port tg)]].
Proof.
  do 2 eexists. split; [run_app; reflexivity|]. split; [run_app; reflexivity|].
  intros name Hname. rewrite !elem_of_cons, elem_of_nil in Hname.
  destruct Hname as [->|[->|[]]]; do 2 eexists;
    (split; [run_app; reflexivity|]); split_and!; reflexivity.
Qed.

Lemma target_port_reaches_container_witness :
  ∃ g tg,
    Synth.service_group_of ∅ "GameService" = Some g ∧
    map snd (Synth.g_target_groups g) = [tg] ∧
    map port_mappings (containers (Synth.g_task_definition g))
      = [[mkPortMapping (tg_port tg)]].
Proof.
  destruct (target_port_reaches_container ∅) as (alb & sg & _ & _ & H).
  destruct (H "GameService") as (g & tg & Hg & Htg & _ & _ & Hport).
  - apply elem_of_cons. right. apply list_elem_of_here.
  - exists g, tg. by split_and!.
Defined.

(** X8: for every context the load balancer is internet facing and its
    listener speaks HTTP; the load balancer's security group lets in
    exactly the TCP traffic on the listener's port, from any source; and
    among the security groups of the compute stack it is the only one with
    a rule open to any address. *)
Theorem load_balancer_open_on_listener_port (ctx : gmap string pyval) :
  ∃ alb sg l,
    Synth.load_balancer ctx "WordBashALB" = Some alb ∧
    internet_facing alb = true ∧
    Synth.security_group ctx (h_path (alb_security_group alb)) = Some sg ∧
    Synth.listener ctx "WordBashALB/HttpListener" = Some l ∧
    listener_protocol l = HTTP ∧
    (∀ c, Firewall.allows sg c = true
          ↔ Firewall.conn_protocol c = Firewall.TCP
            ∧ Firewall.dest_port c = listener_port l) ∧
    (λ stacks, map fst (List.filter (λ pg, Observe.open_to_any (snd pg))
                          (Observe.security_groups_of stacks)))
      <$> Synth.stacks_of ctx = Some ["AlbSecurityGroup"].
Proof.
  do 3 eexists. split; [run_app; reflexivity|]. split; [reflexivity|].
  split; [run_app; reflexivity|]. split; [run_app; reflexivity|].
  split; [reflexivity|]. split; [|run_app; reflexivity].
  intros [groups proto port]. unfold Firewall.allows, Firewall.port_matches.
  cbn -[Z.eqb]. rewrite orb_false_r. destruct proto.
  - rewrite Z.eqb_eq. split; [by intros <- | by intros [_ <-]].
  - split; [discriminate | by intros [? _]].
  - split; [discriminate | by intros [? _]].
Qed.

Lemma load_balancer_open_witness :
  ∃ sg, Synth.security_group ∅ "AlbSecurityGroup" = Some sg ∧
        Firewall.allows sg (Firewall.mkConnection [] Firewall.TCP 80) = true ∧
        Firewall.allows sg (Firewall.mkConnection [] Firewall.TCP 8080) = false.
Proof.
  destruct (load_balancer_open_on_listener_port ∅)
    as (alb & sg & l & Halb & _ & Hsg & Hl & _ & Hiff & _).
  assert (h_path (alb_security_group alb) = "AlbSecurityGroup") as Epath.
  { vm_compute in Halb. by injection Halb as <-. }
  assert (listener_port l = 80) as Eport.
  { vm_compute in Hl. by injection Hl as <-. }
  rewrite Epath in Hsg. exists sg. split; [exact Hsg|]. split.
  - apply Hiff. rewrite Eport. split; reflexivity.
  - destruct (Firewall.allows sg (Firewall.mkConnection [] Firewall.TCP 8080)) eqn:E;
      [|reflexivity].
    apply Hiff in E as [_ E]. rewrite Eport in E. discriminate E.
Defined.

(** ** Roles and environments *)


(** X10: for every context the web container's environment is the game
    container's environment followed by WS_ENDPOINT_PARAM and API_BASE_URL,
    with no variable set twice; WS_ENDPOINT_PARAM is the name of the
    published parameter, which is also the WsEndpointParamPath output; and
    DDB_TABLE_NAME is the table name the data stack exports, which is also
    the DynamoDbTableName output. *)
Theorem container_environments_agree (ctx : gmap string pyval) :
  ∃ web game p extra,
    Observe.container_of ctx "WebService" = Some web ∧
    Observe.container_of ctx "GameService" = Some game ∧
    Synth.parameter ctx "WsEndpointParam" = Some p ∧
    environment web = environment game ++ extra ∧
    map fst extra = ["WS_ENDPOINT_PARAM"; "API_BASE_URL"] ∧
    NoDup (map fst (environment web)) ∧
    Observe.env_lookup "WS_ENDPOINT_PARAM" (environment web)
      = Some (VStr (parameter_name p)) ∧
    out_value <$> Observe.output ctx Synth.compute "WsEndpointParamPath"
      = Some (VStr (parameter_name p)) ∧
    Observe.env_lookup "DDB_TABLE_NAME" (environment game)
      = out_value <$> Observe.output ctx Synth.data "TableName" ∧
    out_value <$> Observe.output ctx Synth.compute "DynamoDbTableName"
      = out_value <$> Observe.output ctx Synth.data "TableName".
Proof.
  do 4 eexists. split; [run_app; reflexivity|]. split; [run_app; reflexivity|].
  split; [run_app; reflexivity|]. split; [reflexivity|].
  split_and!; try reflexivity; try (run_app; reflexivity).
  apply distinct_NoDup. reflexivity.
Qed.

(** X11: the web container's API_BASE_URL is the empty string when the
    context has no truthy "api_base_url" and is that context value itself
    otherwise; the game container has no API_BASE_URL. *)
Theorem api_base_url_default (ctx : gmap string pyval) :
  ∃ web game,
    Observe.container_of ctx "WebService" = Some web ∧
    Observe.container_of ctx "GameService" = Some game ∧
    Observe.env_lookup "API_BASE_URL" (environment game) = None ∧
    (¬ Synth.present_and_truthy ctx "api_base_url" →
       Observe.env_lookup "API_BASE_URL" (environment web) = Some (VStr "")) ∧
    (∀ v, ctx !! "api_base_url" = Some v → truthy v = true →
       Observe.env_lookup "API_BASE_URL" (environment web) = Some (VAtom (APy v))).
Proof.
  do 2 eexists. split; [run_app; reflexivity|]. split; [run_app; reflexivity|].
  split; [reflexivity|]. split.
  - intros H%not_present_and_truthy_spec. cbn. unfold py_or. by rewrite H.
  - intros v Hv Ht. apply try_get_context_present in Hv. cbn. unfold py_or.
    by rewrite Hv, Ht.
Qed.

Lemma api_base_url_default_witness :
  (environment <$> Observe.container_of ∅ "WebService")
    ≫= Observe.env_lookup "API_BASE_URL" = Some (VStr "") ∧
  (environment <$> Observe.container_of {[ "api_base_url" := PyStr "https://x" ]}
                     "WebService")
    ≫= Observe.env_lookup "API_BASE_URL" = Some (VStr "https://x").
Proof.
  split.
  - destruct (api_base_url_default ∅) as (web & game & -> & _ & _ & H & _).
    simpl. apply H. intros (v & Hv & _). vm_compute in Hv. discriminate Hv.
  - destruct (api_base_url_default {[ "api_base_url" := PyStr "https://x" ]})
      as (web & game & -> & _ & _ & _ & H).
    simpl. apply (H (PyStr "https://x")); reflexivity.
Defined.

(** X12: for every context all three stacks are created in the one
    environment read from the context's "account" and "region"; both
    containers get the same AWS_REGION, which is the context's region when
    the context gives one as a string, and the deploy-time AWS::Region when
    the context has no region. *)
Theorem region_reaches_containers (ctx : gmap string pyval) :
  ∃ web game stacks,
    Observe.container_of ctx "WebService" = Some web ∧
    Observe.container_of ctx "GameService" = Some game ∧
    Synth.stacks_of ctx = Some stacks ∧
    Forall (λ s, stack_env s = {| account := try_get_context ctx "account";
                                  region := try_get_context ctx "region" |}) stacks ∧
    Observe.env_lookup "AWS_REGION" (environment web)
      = Observe.env_lookup "AWS_REGION" (environment game) ∧
    (∀ r, ctx !! "region" = Some (PyStr r) →
       Observe.env_lookup "AWS_REGION" (environment game) = Some (VStr r)) ∧
    (ctx !! "region" = None →
       Observe.env_lookup "AWS_REGION" (environment game)
         = Some (VAtom (APseudo "AWS::Region"))).
Proof.
  do 3 eexists. split; [run_app; reflexivity|]. split; [run_app; reflexivity|].
  split; [run_app; reflexivity|]. split; [by repeat constructor|].
  split; [reflexivity|]. split.
  - intros r Hr. apply try_get_context_present in Hr. cbn. unfold stack_region.
    cbn. by rewrite Hr.
  - intros Hr. apply try_get_context_absent in Hr. cbn. unfold stack_region.
    cbn. by rewrite Hr.
Qed.

Lemma region_reaches_containers_witness :
  (environment <$> Observe.container_of {[ "region" := PyStr "eu-west-1" ]} "GameService")
    ≫= Observe.env_lookup "AWS_REGION" = Some (VStr "eu-west-1") ∧
  (environment <$> Observe.container_of ∅ "GameService")
    ≫= Observe.env_lookup "AWS_REGION" = Some (VAtom (APseudo "AWS::Region")).
Proof.
  split.
  - destruct (region_reaches_containers {[ "region" := PyStr "eu-west-1" ]})
      as (web & game & stacks & _ & -> & _ & _ & _ & H & _).
    simpl. apply H. reflexivity.
  - destruct (region_reaches_containers ∅)
      as (web & game & stacks & _ & -> & _ & _ & _ & _ & H).
    simpl. apply H. reflexivity.
Defined.

(** ** What the stack publishes *)

(** X13: for every context the published parameter and the WebSocketUrl
    output hold the same URL, ws:// followed by the DNS name of the stack's
    load balancer and the path /ws, and WebServiceUrl and AlbDnsName are
    built from that same DNS name.  The listener answers the published path
    /ws itself with its default action, the web target group; only paths
    below it, /ws/..., go to the game target group. *)
Theorem published_endpoint (ctx : gmap string pyval) :
  let dns := attribute (mkHandle Synth.compute "WordBashALB") "load_balancer_dns_name" in
  ∃ p l path,
    Synth.parameter ctx "WsEndpointParam" = Some p ∧
    Synth.listener ctx "WordBashALB/HttpListener" = Some l ∧
    string_value p = VFStr [FLit "ws://"; FSub dns; FLit path] ∧
    out_value <$> Observe.output ctx Synth.compute "WebSocketUrl" = Some (string_value p) ∧
    out_value <$> Observe.output ctx Synth.compute "WebServiceUrl"
      = Some (VFStr [FLit "http://"; FSub dns]) ∧
    out_value <$> Observe.output ctx Synth.compute "AlbDnsName" = Some (VAtom dns) ∧
    Observe.url_path (string_value p) = Some path ∧
    Listener.route l path = default_action l ∧
    (∀ rest, Listener.route l (String.append path (String "/"%char rest))
             = forward [mkHandle Synth.compute "GameTargetGroup"]).
Proof.
  intros dns. do 3 eexists.
  split; [run_app; reflexivity|]. split; [apply listener_declared|].
  split; [reflexivity|].
  split; [run_app; reflexivity|]. split; [run_app; reflexivity|].
  split; [run_app; reflexivity|]. split; [reflexivity|]. split; [reflexivity|].
  intros rest. unfold Listener.route. cbn -[glob String.prefix String.append].
  rewrite glob_ws.
  assert (String.prefix "/ws/" (String.append "/ws" (String "/"%char rest)) = true)
    as -> by (by destruct rest).
  reflexivity.
Qed.

(** X14: for every context the two service groups are declared alike:
    their target groups agree in everything but targets and raw overrides
    (same port, protocol, target type and health check), and the services
    agree in cluster, desired count, security groups, memory, CPU,
    container ports, image platform and log retention.  They do not share
    a task definition, and no log group name of one is a log group name of
    the other. *)
Theorem service_groups_are_alike (ctx : gmap string pyval) :
  ∃ web game wtg gtg,
    Synth.service_group_of ctx "WebService" = Some web ∧
    Synth.service_group_of ctx "GameService" = Some game ∧
    map snd (Synth.g_target_groups web) = [wtg] ∧
    map snd (Synth.g_target_groups game) = [gtg] ∧
    Observe.bare wtg = Observe.bare gtg ∧
    cluster (Synth.g_service web) = cluster (Synth.g_service game) ∧
    desired_count (Synth.g_service web) = desired_count (Synth.g_service game) ∧
    security_groups (Synth.g_service web) = security_groups (Synth.g_service game) ∧
    memory_limit_mib (Synth.g_task_definition web)
      = memory_limit_mib (Synth.g_task_definition game) ∧
    cpu (Synth.g_task_definition web) = cpu (Synth.g_task_definition game) ∧
    map port_mappings (containers (Synth.g_task_definition web))
      = map port_mappings (containers (Synth.g_task_definition game)) ∧
    map platform (Synth.g_images web) = map platform (Synth.g_images game) ∧
    map retention (Synth.g_log_groups web) = map retention (Synth.g_log_groups game) ∧
    (∀ n, n ∈ map log_group_name (Synth.g_log_groups web) →
          n ∉ map log_group_name (Synth.g_log_groups game)) ∧
    task_definition (Synth.g_service web) ≠ task_definition (Synth.g_service game).
Proof.
  do 4 eexists. split; [run_app; reflexivity|]. split; [run_app; reflexivity|].
  split_and!; try reflexivity.
  - intros n ->%list_elem_of_singleton [=]%list_elem_of_singleton.
  - discriminate.
Qed.

Lemma service_groups_are_alike_witness :
  ∃ web game,
    Synth.service_group_of ∅ "WebService" = Some web ∧
    Synth.service_group_of ∅ "GameService" = Some game ∧
    "/aws/ecs/wordbash-web" ∉ map log_group_name (Synth.g_log_groups game).
Proof.
  destruct (service_groups_are_alike ∅)
    as (web & game & wtg & gtg & Hw & Hg & _ & _ & _ & _ & _ & _ & _ & _ & _ & _ & _ & H & _).
  exists web, game. split; [exact Hw|]. split; [exact Hg|].
  apply H. vm_compute in Hw. injection Hw as <-. apply list_elem_of_here.
Defined.

(** ** The data stack under other ids *)

(** X16: two data stacks can be created in one app under two different
    ids: they hold different table objects and claim different export
    names, but both give their table the same fixed name, wordbash_games.
    Under one and the same id the second creation is refused. *)
Theorem data_stack_under_two_ids (ctx : gmap string pyval) id1 id2 env :
  (id1 ≠ id2 →
   ∃ d1 d2 s1 s2,
     (DataStack.__init__ ctx id1 env ≫= λ d1,
      DataStack.__init__ ctx id2 env ≫= λ d2, mret (d1, d2)) []
       = inr ((d1, d2), [s1; s2]) ∧
     stack_id s1 = id1 ∧ stack_id s2 = id2 ∧
     DataStack.table d1 ≠ DataStack.table d2 ∧
     Observe.physical_names (children s1) = ["wordbash_games"] ∧
     Observe.physical_names (children s2) = ["wordbash_games"] ∧
     length (Observe.exports s1) = 2%nat ∧
     (∀ e, e ∈ Observe.exports s1 → e ∉ Observe.exports s2)) ∧
  (DataStack.__init__ ctx id1 env ≫= λ _, DataStack.__init__ ctx id1 env) []
    = inl (AlreadyExists id1).
Proof.
  split.
  - intros Hne. apply String.eqb_neq in Hne.
    unfold DataStack.__init__, new_stack, mbind, ST_bind, mret, ST_ret. cbn.
    rewrite Hne. cbn. do 4 eexists. split; [reflexivity|].
    split_and!; try reflexivity.
    + intros [= E]. apply String.eqb_neq in Hne. exact (Hne E).
    + apply String.eqb_neq in Hne. intros e. cbn.
      rewrite !elem_of_cons, !elem_of_nil.
      intros [->|[->|[]]] [[=]|[[=]|[]]]; congruence.
  - unfold DataStack.__init__, new_stack, mbind, ST_bind, mret, ST_ret. cbn.
    by rewrite String.eqb_refl.
Qed.
